(** * MeLD checkpoint store and collective channel

    A shallow embedding of [meld/vault.py] (class [DataStore]) and
    [meld/comm.py] (class [MPICommunicator]), together with the part of
    their environment the two classes talk to: the file system ([os],
    [shutil], [open]), object serialisation ([cPickle]), the hierarchical
    container ([h5py]) and the array library ([numpy]).

    Python objects are their attribute dictionaries, methods are
    computations in a state-and-exception monad whose state survives a
    raised exception (a Python exception does not undo the effects that
    preceded it). *)

From Stdlib Require Import ZArith Ascii String List PrimFloat Lia.
From stdpp Require Import base gmap strings list fin_maps.

Open Scope Z_scope.

(** ** Exceptions and values *)

Inductive exn : Type :=
| RuntimeError (msg : string)
| AttributeError (owner attr : string)
| TypeError (what : string)
| ValueError (what : string)
| KeyError (key : string)
| IndexError
| IOError (path : string)
| OSError (path : string)
| ZeroDivisionError
| PicklingError
| UnpicklingError.

(** The values an attribute of the two classes can hold.  [PyH5File] is a
    live [h5py.File] object, [PyMPIComm] the live [MPI.COMM_WORLD]. *)
Inductive pyval : Type :=
| PyNone
| PyInt (z : Z)
| PyStr (s : string)
| PyH5File (path mode : string)
| PyMPIComm.

Inductive pyclass : Type :=
| ClsDataStore
| ClsMPICommunicator
| ClsOther (name : string).

(** An object: its class and its [__dict__]. *)
Record pyobj : Type := PyObj { cls : pyclass; attrs : gmap string pyval }.

Definition type_name (v : pyval) : string :=
  match v with
  | PyNone => "NoneType"
  | PyInt _ => "int"
  | PyStr _ => "str"
  | PyH5File _ _ => "File"
  | PyMPIComm => "Intracomm"
  end.

(** Python truth value, as used by [if self._h5_file:]. *)
Definition truthy (v : pyval) : bool :=
  match v with
  | PyNone => false
  | PyInt z => negb (Z.eqb z 0)
  | PyStr s => negb (String.eqb s "")
  | PyH5File _ _ => true
  | PyMPIComm => true
  end.

(** Live handles cannot be pickled. *)
Definition picklable (v : pyval) : bool :=
  match v with
  | PyH5File _ _ | PyMPIComm => false
  | _ => true
  end.

(** ** The monad *)

Inductive outcome (A : Type) : Type :=
| Ok (a : A)
| Raise (e : exn).
Arguments Ok {A} a.
Arguments Raise {A} e.

Definition M (S A : Type) : Type := S → outcome A * S.

Definition ret {S A} (a : A) : M S A := λ s, (Ok a, s).

Definition bind {S A B} (c : M S A) (k : A → M S B) : M S B :=
  λ s, match c s with
       | (Ok a, s') => k a s'
       | (Raise e, s') => (Raise e, s')
       end.

Definition raise {S A} (e : exn) : M S A := λ s, (Raise e, s).

Definition get {S} : M S S := λ s, (Ok s, s).

Definition modify {S} (f : S → S) : M S unit := λ s, (Ok tt, f s).

Notation "x <- c ;; k" := (bind c (λ x, k))
  (at level 100, c at next level, right associativity).

(** [[f(x) for x in xs]] where [f] may raise. *)
Fixpoint map_M {S A B} (f : A → M S B) (xs : list A) : M S (list B) :=
  match xs with
  | [] => ret []
  | x :: xs' => y <- f x;; ys <- map_M f xs';; ret (y :: ys)
  end.

(** ** Paths: [os.path.join] and [os.path.split] (POSIX) *)

Definition slash : Ascii.ascii := "/"%char.

Fixpoint ends_with_slash (p : string) : bool :=
  match p with
  | EmptyString => false
  | String c EmptyString => Ascii.eqb c slash
  | String _ r => ends_with_slash r
  end.

Definition starts_with_slash (p : string) : bool :=
  match p with
  | String c _ => Ascii.eqb c slash
  | EmptyString => false
  end.

Definition os_path_join (a b : string) : string :=
  if starts_with_slash b then b
  else if String.eqb a "" || ends_with_slash a then a +:+ b
  else a +:+ "/" +:+ b.

(** [scan p head cur]: [head] is everything up to and including the last
    slash seen, [cur] what follows it. *)
Fixpoint split_scan (p head cur : string) : string * string :=
  match p with
  | EmptyString => (head, cur)
  | String c r =>
      if Ascii.eqb c slash
      then split_scan r (head +:+ cur +:+ "/") ""
      else split_scan r head (cur +:+ String c "")
  end.

Fixpoint all_slashes (p : string) : bool :=
  match p with
  | EmptyString => true
  | String c r => Ascii.eqb c slash && all_slashes r
  end.

(** [s.rstrip('/')] *)
Fixpoint rstrip_slash (p : string) : string :=
  match p with
  | EmptyString => ""
  | String c r => if all_slashes (String c r) then "" else String c (rstrip_slash r)
  end.

Definition os_path_split (p : string) : string * string :=
  let '(head, tail) := split_scan p "" "" in
  (if negb (String.eqb head "") && negb (all_slashes head)
   then rstrip_slash head else head, tail).

Definition os_path_dirname (p : string) : string := (os_path_split p).1.

(** ** Arrays *)

(** A [numpy] array of floats: its shape and its elements in C order. *)
Record ndarray : Type := NdArray { shape : list nat; data : list float }.

Definition nelems (sh : list nat) : nat := foldr Nat.mul 1%nat sh.

Definition wf_array (a : ndarray) : Prop := length (data a) = nelems (shape a).

(** What [np.array(seq)] yields: a float array, or an object array when
    the items do not stack. *)
Inductive nparr : Type :=
| NumArr (a : ndarray)
| ObjArr.

Definition same_shape (sh : list nat) (a : ndarray) : bool :=
  bool_decide (shape a = sh).

(** [np.array([a0, a1, ...])]; a Python float is a zero-dimensional array. *)
Definition np_array (items : list ndarray) : nparr :=
  match items with
  | [] => NumArr (NdArray [0%nat] [])
  | a :: _ =>
      if forallb (same_shape (shape a)) items
      then NumArr (NdArray (length items :: shape a) (concat (map data items)))
      else ObjArr
  end.

(** [a[i]] for [i] in [range(n)], so [i] is not negative. *)
Definition ndarray_getitem (a : ndarray) (i : nat) : outcome ndarray :=
  match shape a with
  | [] => Raise IndexError
  | d :: rest =>
      if bool_decide (i < d)%nat
      then Ok (NdArray rest (take (nelems rest) (drop (i * nelems rest) (data a))))
      else Raise IndexError
  end.

(** ** The file system *)

(** A stage-indexed series of the container.  The array of shape
    [ds_outer ++ [n]] is kept as its [n] slices along the last (stage)
    axis, each slice being the elements of one [ds[..., k]] in C order. *)
Record dataset : Type := Dataset {
  ds_outer : list nat;
  ds_maxshape : list (option nat);
  ds_slices : list (list float)
}.

Inductive content : Type :=
| Raw
| Pickled (c : pyclass) (state : gmap string pyval)
| H5 (datasets : gmap string dataset).

Inductive node : Type :=
| Dir
| File (c : content).

(** The state a [DataStore] method runs in: the object and the disk. *)
Record world : Type := World { self : pyobj; fs : gmap string node }.

Definition set_fs (f : gmap string node → gmap string node) : M world unit :=
  modify (λ w, World (self w) (f (fs w))).

Definition parent_exists (fs : gmap string node) (p : string) : bool :=
  let d := os_path_dirname p in
  if all_slashes d then true
  else match fs !! d with Some Dir => true | _ => false end.

Definition os_path_exists (p : string) : M world bool :=
  λ w, (Ok (bool_decide (is_Some (fs w !! p))), w).

Definition os_path_isdir (p : string) : M world bool :=
  λ w, (Ok (match fs w !! p with Some Dir => true | _ => false end), w).

Definition os_mkdir (p : string) : M world unit :=
  λ w, match fs w !! p with
       | Some _ => (Raise (OSError p), w)
       | None =>
           if parent_exists (fs w) p
           then (Ok tt, World (self w) (<[p := Dir]> (fs w)))
           else (Raise (OSError p), w)
       end.

(** [open(p, 'w')]: create or truncate. *)
Definition open_w (p : string) : M world unit :=
  λ w, match fs w !! p with
       | Some Dir => (Raise (IOError p), w)
       | _ =>
           if parent_exists (fs w) p
           then (Ok tt, World (self w) (<[p := File Raw]> (fs w)))
           else (Raise (IOError p), w)
       end.

(** [open(p).read()] *)
Definition open_r (p : string) : M world content :=
  λ w, match fs w !! p with
       | Some (File c) => (Ok c, w)
       | _ => (Raise (IOError p), w)
       end.

Definition write_file (p : string) (c : content) : M world unit :=
  set_fs (<[p := File c]>).

(** [shutil.copy(src, dst)] *)
Definition shutil_copy (src dst : string) : M world unit :=
  isdir <- os_path_isdir dst;;
  let dst := if (isdir : bool) then os_path_join dst (os_path_split src).2 else dst in
  if bool_decide (src = dst) then raise (IOError dst) else
  c <- open_r src;;
  _ <- open_w dst;;
  write_file dst c.

(** ** Pickling

    [pickle.dump(obj, f)] stores the class of [obj] and what its
    [__getstate__] returns; [pickle.load(f)] makes a bare instance of the
    class and hands the stored state to its [__setstate__].  The two
    methods are looked up by class, through [getstate] and [setstate]. *)

Definition pickle_dump (getstate : pyobj → gmap string pyval)
    (obj : pyobj) (p : string) : M world unit :=
  let state := getstate obj in
  if bool_decide (map_Forall (λ _ v, picklable v = true) state)
  then write_file p (Pickled (cls obj) state)
  else raise PicklingError.

Definition pickle_load (setstate : pyclass → gmap string pyval → pyobj)
    (c : content) : M world pyobj :=
  match c with
  | Pickled k state => ret (setstate k state)
  | _ => raise UnpicklingError
  end.

(** ** The container library *)

(** [h5py.File(path, mode)] *)
Definition h5py_File (path mode : string) : M world pyval :=
  λ w,
  let create :=
    if parent_exists (fs w) path
    then (Ok (PyH5File path mode), World (self w) (<[path := File (H5 ∅)]> (fs w)))
    else (Raise (IOError path), w) in
  let open_existing :=
    match fs w !! path with
    | Some (File (H5 _)) => (Ok (PyH5File path mode), w)
    | _ => (Raise (IOError path), w)
    end in
  if bool_decide (mode = "w-") then
    match fs w !! path with
    | Some _ => (Raise (IOError path), w)
    | None => create
    end
  else if bool_decide (mode = "a") then
    match fs w !! path with
    | None => create
    | Some _ => open_existing
    end
  else if bool_decide (mode = "r") || bool_decide (mode = "r+") then open_existing
  else if bool_decide (mode = "w") then
    match fs w !! path with
    | Some Dir => (Raise (IOError path), w)
    | _ => create
    end
  else (Raise (ValueError "Invalid mode"), w).

(** The datasets of the file behind a live handle. *)
Definition h5_datasets (path : string) : M world (gmap string dataset) :=
  λ w, match fs w !! path with
       | Some (File (H5 dss)) => (Ok dss, w)
       | _ => (Raise (IOError path), w)
       end.

(** A dataset object, as returned by [f[name]]. *)
Record dsref : Type := DsRef { dr_path : string; dr_mode : string; dr_name : string }.

(** [f[name]] *)
Definition h5_getitem (f : pyval) (name : string) : M world dsref :=
  match f with
  | PyH5File path mode =>
      dss <- h5_datasets path;;
      match dss !! name with
      | Some _ => ret (DsRef path mode name)
      | None => raise (KeyError name)
      end
  | _ => raise (TypeError (type_name f))
  end.

Definition deref (r : dsref) : M world dataset :=
  dss <- h5_datasets (dr_path r);;
  match dss !! dr_name r with
  | Some ds => ret ds
  | None => raise (KeyError (dr_name r))
  end.

(** An integer index on an axis of the given length; negative indices
    count from the end. *)
Definition translate_int (exp : Z) (length : nat) : outcome nat :=
  let exp := if exp <? 0 then Z.of_nat length + exp else exp in
  if (0 <=? exp) && (exp <? Z.of_nat length)
  then Ok (Z.to_nat exp)
  else Raise (ValueError "Index out of range").

Definition lift_outcome {S A} (o : outcome A) : M S A := λ s, (o, s).

(** [ds[..., stage]] *)
Definition dataset_getitem (r : dsref) (stage : Z) : M world ndarray :=
  ds <- deref r;;
  i <- lift_outcome (translate_int stage (length (ds_slices ds)));;
  match ds_slices ds !! i with
  | Some sl => ret (NdArray (ds_outer ds) sl)
  | None => raise (ValueError "Index out of range")
  end.

Definition dims_of (vs : list pyval) : outcome (list nat) :=
  foldr (λ v acc,
           match v, acc with
           | PyInt z, Ok ds =>
               if 0 <=? z then Ok (Z.to_nat z :: ds)
               else Raise (ValueError "negative dimension")
           | _, Ok _ => Raise (TypeError (type_name v))
           | _, Raise e => Raise e
           end) (Ok []) vs.

Definition maxdims_of (vs : list pyval) : outcome (list (option nat)) :=
  foldr (λ v acc,
           match v, acc with
           | PyNone, Ok ds => Ok (None :: ds)
           | PyInt z, Ok ds =>
               if 0 <=? z then Ok (Some (Z.to_nat z) :: ds)
               else Raise (ValueError "negative dimension")
           | _, Ok _ => Raise (TypeError (type_name v))
           | _, Raise e => Raise e
           end) (Ok []) vs.

Definition fits (d : nat) (m : option nat) : bool :=
  match m with
  | None => true
  | Some k => bool_decide (d ≤ k)%nat
  end.

Fixpoint all_fit (sh : list nat) (mx : list (option nat)) : bool :=
  match sh, mx with
  | [], [] => true
  | d :: sh', m :: mx' => fits d m && all_fit sh' mx'
  | _, _ => false
  end.

(** [f.create_dataset(name, shape=..., dtype=float, maxshape=...)]; the
    new series is filled with zeros.  Compression, checksum and shuffle
    filters do not change what is read back. *)
Definition h5_create_dataset (f : pyval) (name : string)
    (shp maxshp : M world (list pyval)) : M world unit :=
  match f with
  | PyH5File path mode =>
      shp <- shp;;
      maxshp <- maxshp;;
      sh <- lift_outcome (dims_of shp);;
      mx <- lift_outcome (maxdims_of maxshp);;
      if negb (all_fit sh mx) then raise (ValueError "maxshape") else
      match reverse sh with
      | [] => raise (TypeError "scalar dataset")
      | n :: rev_outer =>
          let outer := reverse rev_outer in
          dss <- h5_datasets path;;
          if bool_decide (mode = "r") then raise (IOError path) else
          match dss !! name with
          | Some _ => raise (ValueError "name already exists")
          | None =>
              let ds := Dataset outer mx
                          (replicate n (replicate (nelems outer) PrimFloat.zero)) in
              write_file path (H5 (<[name := ds]> dss))
          end
      end
  | _ => raise (AttributeError (type_name f) "create_dataset")
  end.

Section Broadcast.

(** [h5_broadcast sel v]: the elements written into a selection of shape
    [sel] when the value [v] has another shape, [None] when the library
    refuses to broadcast.  Its rules belong to the library; the store
    only ever relies on the case where the shapes agree. *)
Variable h5_broadcast : list nat → ndarray → option (list float).

(** [ds[..., stage] = value] *)
Definition dataset_setitem (r : dsref) (stage : Z) (value : nparr) : M world unit :=
  match value with
  | ObjArr => raise (ValueError "setting an array element with a sequence")
  | NumArr v =>
      ds <- deref r;;
      i <- lift_outcome (translate_int stage (length (ds_slices ds)));;
      elems <- (if bool_decide (shape v = ds_outer ds) then ret (data v)
                else match h5_broadcast (ds_outer ds) v with
                     | Some d => ret d
                     | None => raise (TypeError "Can't broadcast")
                     end);;
      if bool_decide (dr_mode r = "r") then raise (IOError (dr_path r)) else
      dss <- h5_datasets (dr_path r);;
      write_file (dr_path r)
        (H5 (<[dr_name r := Dataset (ds_outer ds) (ds_maxshape ds)
                              (<[i := elems]> (ds_slices ds))]> dss))
  end.

End Broadcast.

(** ** Attribute access *)

Definition class_name (k : pyclass) : string :=
  match k with
  | ClsDataStore => "DataStore"
  | ClsMPICommunicator => "MPICommunicator"
  | ClsOther name => name
  end.

(** [obj.name]; an attribute that was never assigned raises. *)
Definition getattr (obj : pyobj) (name : string) : outcome pyval :=
  match attrs obj !! name with
  | Some v => Ok v
  | None => Raise (AttributeError (class_name (cls obj)) name)
  end.

(** [obj.name = v] *)
Definition setattr (obj : pyobj) (name : string) (v : pyval) : pyobj :=
  PyObj (cls obj) (<[name := v]> (attrs obj)).

(** * comm.py *)

Module MPICommunicator.

Section Substrate.

(** The message-passing library: the state of the process group, the
    objects it carries, and its collective calls on [MPI.COMM_WORLD]. *)
Variable mpi : Type.
Variable payload : Type.
Variable Get_rank : M mpi Z.
Variable scatter gather bcast : option payload → Z → M mpi payload.
Variable np_array_of : payload → payload.

(** A communicator method runs on the object and the process group. *)
Record cstate : Type := CState { this : pyobj; group : mpi }.

Definition self_attr (name : string) : M cstate pyval :=
  λ s, (getattr (this s) name, s).

Definition set_self_attr (name : string) (v : pyval) : M cstate unit :=
  modify (λ s, CState (setattr (this s) name v) (group s)).

Definition on_group {A} (c : M mpi A) : M cstate A :=
  λ s, let '(r, g) := c (group s) in (r, CState (this s) g).

(** [target.meth(...)] where only a live communicator has [meth]. *)
Definition call {A} (target : pyval) (meth : string) (body : M mpi A) : M cstate A :=
  match target with
  | PyMPIComm => on_group body
  | v => raise (AttributeError (type_name v) meth)
  end.

Definition __init__ (n_atoms n_replicas n_springs : Z) : pyobj :=
  let self := PyObj ClsMPICommunicator ∅ in
  let self := setattr self "_n_atoms" (PyInt n_atoms) in
  let self := setattr self "_n_replicas" (PyInt n_replicas) in
  let self := setattr self "_n_springs" (PyInt n_springs) in
  let self := setattr self "_mpi_comm" PyNone in
  self.

Definition __getstate__ (self : pyobj) : gmap string pyval :=
  filter (λ kv, ¬ (kv.1 = "_mpi_comm")) (attrs self).

Definition __setstate__ (state : gmap string pyval) : pyobj :=
  let self := PyObj ClsMPICommunicator state in
  setattr self "_mpi_comm" PyNone.

Definition get_mpi_comm_world : M cstate pyval := ret PyMPIComm.

Definition initialize : M cstate unit :=
  c <- get_mpi_comm_world;;
  _ <- set_self_attr "_mpi_comm" c;;
  c <- self_attr "_mpi_comm";;
  r <- call c "Get_rank" Get_rank;;
  set_self_attr "_my_rank" (PyInt r).

Definition is_master : M cstate bool :=
  r <- self_attr "_my_rank";;
  match r with
  | PyInt 0 => ret true
  | _ => ret false
  end.

Definition broadcast_lambdas_to_slaves (lambdas : payload) : M cstate unit :=
  c <- self_attr "_mpi_comm";;
  _ <- call c "scatter" (scatter (Some lambdas) 0);;
  ret tt.

Definition recieve_lambda_from_master : M cstate payload :=
  c <- self_attr "_mpi_comm";;
  call c "scatter" (scatter None 0).

Definition broadcast_states_to_slaves (states : payload) : M cstate payload :=
  c <- self_attr "_mpi_comm";;
  call c "scatter" (scatter (Some states) 0).

Definition recieve_state_from_master : M cstate payload :=
  c <- self_attr "_mpi_comm";;
  call c "scatter" (scatter None 0).

Definition gather_states_from_slaves (state_on_master : payload) : M cstate payload :=
  c <- self_attr "_mpi_comm";;
  call c "gather" (gather (Some state_on_master) 0).

Definition send_state_to_master (state : payload) : M cstate unit :=
  c <- self_attr "_mpi_comm";;
  _ <- call c "gather" (gather (Some state) 0);;
  ret tt.

Definition broadcast_states_for_energy_calc_to_slaves (states : payload) : M cstate unit :=
  c <- self_attr "_mpi_comm";;
  _ <- call c "bcast" (bcast (Some states) 0);;
  ret tt.

Definition recieve_states_for_energy_calc_from_master : M cstate payload :=
  c <- self_attr "_mpi_comm";;
  call c "bcast" (bcast None 0).

Definition gather_energies_from_slaves (energies_on_master : payload) : M cstate payload :=
  c <- self_attr "_mpi_comm";;
  energies <- call c "gather" (gather (Some energies_on_master) 0);;
  ret (np_array_of energies).

Definition send_energies_to_master (energies : payload) : M cstate payload :=
  c <- self_attr "_mpi_comm";;
  call c "gather" (gather (Some energies) 0).

Definition n_replicas : M cstate pyval := self_attr "_n_replicas".
Definition n_atoms : M cstate pyval := self_attr "_n_atoms".
Definition n_springs : M cstate pyval := self_attr "_n_springs".
Definition rank : M cstate pyval := self_attr "_my_rank".

End Substrate.

End MPICommunicator.

(** * system/state.py *)

(** Modelled from the spec: [meld.system.state.SystemState], the
    per-replica state, whose source is not part of the files at hand.  It
    carries positions, velocities, spring states, spring energies, the
    coupling parameter and the total energy; the constructor takes them
    in the order used by [load_states].  A scalar is a zero-dimensional
    array. *)
Record SystemState : Type := state_SystemState {
  positions : ndarray;
  velocities : ndarray;
  spring_states : ndarray;
  lam : ndarray;
  energy : ndarray;
  spring_energies : ndarray
}.

(** * vault.py *)

Module DataStore.

Definition data_dir : string := "Data".
Definition backup_dir : string := os_path_join data_dir "Backup".
Definition data_store_path : string := os_path_join data_dir "data_store.dat".
Definition communicator_path : string := os_path_join data_dir "communicator.dat".
Definition remd_runner_path : string := os_path_join data_dir "remd_runner.dat".
Definition h5_path : string := os_path_join data_dir "results.h5".

Definition __init__ (n_atoms n_springs n_replicas backup_freq : Z) : pyobj :=
  let self := PyObj ClsDataStore ∅ in
  let self := setattr self "_n_atoms" (PyInt n_atoms) in
  let self := setattr self "_n_springs" (PyInt n_springs) in
  let self := setattr self "_n_replicas" (PyInt n_replicas) in
  let self := setattr self "_backup_freq" (PyInt backup_freq) in
  let self := setattr self "_h5_file" PyNone in
  self.

Definition __getstate__ (self : pyobj) : gmap string pyval :=
  let excluded := ["_h5_file"] in
  filter (λ kv, ¬ (kv.1 ∈ excluded)) (attrs self).

Definition __setstate__ (state : gmap string pyval) : pyobj :=
  let self := PyObj ClsDataStore state in
  setattr self "_h5_file" PyNone.

(** How the pickler finds the two methods of an object's class; a class
    without them pickles its whole [__dict__]. *)
Definition getstate_of (obj : pyobj) : gmap string pyval :=
  match cls obj with
  | ClsDataStore => __getstate__ obj
  | ClsMPICommunicator => MPICommunicator.__getstate__ obj
  | ClsOther _ => attrs obj
  end.

Definition setstate_of (k : pyclass) (state : gmap string pyval) : pyobj :=
  match k with
  | ClsDataStore => __setstate__ state
  | ClsMPICommunicator => MPICommunicator.__setstate__ state
  | ClsOther name => PyObj (ClsOther name) state
  end.

Definition self_attr (name : string) : M world pyval :=
  λ w, (getattr (self w) name, w).

Definition set_self_attr (name : string) (v : pyval) : M world unit :=
  modify (λ w, World (setattr (self w) name v) (fs w)).

(** [f.close()] *)
Definition h5_close (f : pyval) : M world unit :=
  match f with
  | PyH5File _ _ => ret tt
  | v => raise (AttributeError (type_name v) "close")
  end.

Definition __del__ : M world unit :=
  f <- self_attr "_h5_file";;
  if truthy f then h5_close f else ret tt.

Definition n_replicas : M world pyval := self_attr "_n_replicas".
Definition n_atoms : M world pyval := self_attr "_n_atoms".
Definition n_springs : M world pyval := self_attr "_n_springs".

(** *** private methods *)

Definition _setup_positions : M world unit :=
  f <- self_attr "_h5_file";;
  h5_create_dataset f "positions"
    (r <- self_attr "_n_replicas";; a <- self_attr "_n_atoms";;
     ret [r; a; PyInt 3; PyInt 1])
    (r <- self_attr "_n_replicas";; a <- self_attr "_n_atoms";;
     ret [r; a; PyInt 3; PyNone]).

Definition _setup_velocities : M world unit :=
  f <- self_attr "_h5_file";;
  h5_create_dataset f "velocities"
    (r <- self_attr "_n_replicas";; a <- self_attr "_n_atoms";;
     ret [r; a; PyInt 3; PyInt 1])
    (r <- self_attr "_n_replicas";; a <- self_attr "_n_atoms";;
     ret [r; a; PyInt 3; PyNone]).

Definition _setup_spring_states : M world unit :=
  f <- self_attr "_h5_file";;
  h5_create_dataset f "spring_states"
    (r <- self_attr "_n_replicas";; s <- self_attr "_n_springs";;
     ret [r; s; PyInt 1])
    (r <- self_attr "_n_replicas";; s <- self_attr "_n_springs";;
     ret [r; s; PyNone]).

Definition _setup_spring_energies : M world unit :=
  f <- self_attr "_h5_file";;
  h5_create_dataset f "spring_energies"
    (r <- self_attr "_n_replicas";; s <- self_attr "_n_springs";;
     ret [r; s; PyInt 1])
    (r <- self_attr "_n_replicas";; s <- self_attr "_n_springs";;
     ret [r; s; PyNone]).

Definition _setup_lambdas : M world unit :=
  f <- self_attr "_h5_file";;
  h5_create_dataset f "lambdas"
    (r <- self_attr "_n_replicas";; ret [r; PyInt 1])
    (r <- self_attr "_n_replicas";; ret [r; PyNone]).

Definition _setup_energies : M world unit :=
  f <- self_attr "_h5_file";;
  h5_create_dataset f "energies"
    (r <- self_attr "_n_replicas";; ret [r; PyInt 1])
    (r <- self_attr "_n_replicas";; ret [r; PyNone]).

Definition _setup_h5_datasets : M world unit :=
  _ <- _setup_positions;;
  _ <- _setup_velocities;;
  _ <- _setup_spring_states;;
  _ <- _setup_spring_energies;;
  _ <- _setup_lambdas;;
  _setup_energies.

Definition _make_backup_path (path : string) : string :=
  let '(base, name) := os_path_split path in
  os_path_join backup_dir name.

Definition _backup (path : string) : M world unit :=
  ex <- os_path_exists path;;
  if (ex : bool) then
    let backup_path := _make_backup_path path in
    shutil_copy path backup_path
  else ret tt.

(** *** public methods *)

Definition initialize (mode : string) : M world unit :=
  if bool_decide (mode = "new") then
    ex <- os_path_exists data_dir;;
    if (ex : bool) then raise (RuntimeError "Data directory already exists") else
    _ <- os_mkdir data_dir;;
    _ <- os_mkdir backup_dir;;
    f <- h5py_File h5_path "w-";;
    _ <- set_self_attr "_h5_file" f;;
    _setup_h5_datasets
  else if bool_decide (mode = "existing") then
    f <- h5py_File h5_path "a";;
    set_self_attr "_h5_file" f
  else
    raise (RuntimeError ("Unknown value for mode=" +:+ mode)).

Definition close : M world unit :=
  f <- self_attr "_h5_file";;
  if truthy f then
    _ <- h5_close f;;
    set_self_attr "_h5_file" PyNone
  else ret tt.

Definition save_data_store : M world unit :=
  _ <- open_w data_store_path;;
  w <- get;;
  pickle_dump getstate_of (self w) data_store_path.

Definition load_data_store : M world pyobj :=
  c <- open_r data_store_path;;
  pickle_load setstate_of c.

Definition save_communicator (comm : pyobj) : M world unit :=
  _ <- open_w communicator_path;;
  pickle_dump getstate_of comm communicator_path.

Definition load_communicator : M world pyobj :=
  c <- open_r communicator_path;;
  pickle_load setstate_of c.


Definition load_remd_runner : M world pyobj :=
  c <- open_r remd_runner_path;;
  pickle_load setstate_of c.



(** [self._h5_file[name][..., stage]] *)
Definition load_series (name : string) (stage : Z) : M world ndarray :=
  f <- self_attr "_h5_file";;
  ds <- h5_getitem f name;;
  dataset_getitem ds stage.

Definition load_positions (stage : Z) : M world ndarray := load_series "positions" stage.
Definition load_velocities (stage : Z) : M world ndarray := load_series "velocities" stage.
Definition load_spring_states (stage : Z) : M world ndarray := load_series "spring_states" stage.
Definition load_spring_energies (stage : Z) : M world ndarray :=
  load_series "spring_energies" stage.
Definition load_lambdas (stage : Z) : M world ndarray := load_series "lambdas" stage.
Definition load_energies (stage : Z) : M world ndarray := load_series "energies" stage.

(** [range(n)] *)
Definition range (n : pyval) : outcome (list nat) :=
  match n with
  | PyInt z => Ok (seq 0 (Z.to_nat z))
  | v => Raise (TypeError (type_name v))
  end.

Definition load_states (stage : Z) : M world (list SystemState) :=
  positions <- load_positions stage;;
  velocities <- load_velocities stage;;
  spring_states <- load_spring_states stage;;
  spring_energies <- load_spring_energies stage;;
  lambdas <- load_lambdas stage;;
  energies <- load_energies stage;;
  n <- self_attr "_n_replicas";;
  idx <- lift_outcome (range n);;
  map_M (λ i,
           p <- lift_outcome (ndarray_getitem positions i);;
           v <- lift_outcome (ndarray_getitem velocities i);;
           ss <- lift_outcome (ndarray_getitem spring_states i);;
           l <- lift_outcome (ndarray_getitem lambdas i);;
           e <- lift_outcome (ndarray_getitem energies i);;
           se <- lift_outcome (ndarray_getitem spring_energies i);;
           ret (state_SystemState p v ss l e se))
        idx.

(** [a % b] for an integer [a] *)
Definition py_mod (a : Z) (b : pyval) : outcome Z :=
  match b with
  | PyInt 0 => Raise ZeroDivisionError
  | PyInt b => Ok (a mod b)
  | v => Raise (TypeError (type_name v))
  end.

Definition backup (stage : Z) : M world unit :=
  freq <- self_attr "_backup_freq";;
  m <- lift_outcome (py_mod stage freq);;
  if negb (truthy (PyInt m)) then
    _ <- _backup communicator_path;;
    _ <- _backup data_store_path;;
    _ <- _backup remd_runner_path;;
    f <- self_attr "_h5_file";;
    _ <- h5_close f;;
    _ <- _backup h5_path;;
    f <- h5py_File h5_path "a";;
    set_self_attr "_h5_file" f
  else ret tt.

Section Saving.

Variable h5_broadcast : list nat → ndarray → option (list float).

(** [self._h5_file[name][..., stage] = value] *)
Definition save_series (name : string) (value : nparr) (stage : Z) : M world unit :=
  f <- self_attr "_h5_file";;
  ds <- h5_getitem f name;;
  dataset_setitem h5_broadcast ds stage value.

Definition save_positions (positions : nparr) (stage : Z) : M world unit :=
  save_series "positions" positions stage.
Definition save_velocities (velocities : nparr) (stage : Z) : M world unit :=
  save_series "velocities" velocities stage.
Definition save_spring_states (spring_states : nparr) (stage : Z) : M world unit :=
  save_series "spring_states" spring_states stage.
Definition save_spring_energies (spring_energies : nparr) (stage : Z) : M world unit :=
  save_series "spring_energies" spring_energies stage.
Definition save_lambdas (lambdas : nparr) (stage : Z) : M world unit :=
  save_series "lambdas" lambdas stage.
Definition save_energies (energies : nparr) (stage : Z) : M world unit :=
  save_series "energies" energies stage.

Definition save_states (states : list SystemState) (stage : Z) : M world unit :=
  let positions := np_array (map positions states) in
  let velocities := np_array (map velocities states) in
  let spring_states := np_array (map spring_states states) in
  let spring_energies := np_array (map spring_energies states) in
  let lambdas := np_array (map lam states) in
  let energies := np_array (map energy states) in
  _ <- save_positions positions stage;;
  _ <- save_velocities velocities stage;;
  _ <- save_spring_states spring_states stage;;
  _ <- save_spring_energies spring_energies stage;;
  _ <- save_lambdas lambdas stage;;
  save_energies energies stage.

End Saving.

End DataStore.

(** * Properties *)

Import DataStore.

(** ** Stores and disks the properties speak about *)

(** The store holds a live handle on the container at [path], which holds
    the series [dss]. *)
Definition opened (w : world) (path mode : string) (dss : gmap string dataset) : Prop :=
  getattr (self w) "_h5_file" = Ok (PyH5File path mode) ∧
  fs w !! path = Some (File (H5 dss)).

(** The six series of the stage table. *)
Definition quantities : list string :=
  ["positions"; "velocities"; "spring_states"; "spring_energies"; "lambdas"; "energies"].

(** The dimensions a series has besides the stage axis, for [r] replicas,
    [a] atoms and [s] springs. *)
Definition outer_dims (r a s : nat) (name : string) : list nat :=
  if bool_decide (name = "positions") || bool_decide (name = "velocities") then [r; a; 3%nat]
  else if bool_decide (name = "spring_states") || bool_decide (name = "spring_energies")
  then [r; s]
  else [r].

(** All six series exist with dimensions matching the construction
    parameters (the check the specification asks of [existing] mode). *)
Definition series_match (store : pyobj) (dss : gmap string dataset) : Prop :=
  ∃ r a s : nat,
    getattr store "_n_replicas" = Ok (PyInt (Z.of_nat r)) ∧
    getattr store "_n_atoms" = Ok (PyInt (Z.of_nat a)) ∧
    getattr store "_n_springs" = Ok (PyInt (Z.of_nat s)) ∧
    ∀ name, name ∈ quantities →
      ∃ ds, dss !! name = Some ds ∧ ds_outer ds = outer_dims r a s name.

(** ** Effects of a write

    What a successful [ds[..., stage] = v] leaves in series [name]. *)
Definition written (ds : dataset) (i : nat) (v : ndarray) : dataset :=
  Dataset (ds_outer ds) (ds_maxshape ds) (<[i := data v]> (ds_slices ds)).

Definition with_series (w : world) (path name : string) (dss : gmap string dataset)
    (ds : dataset) : world :=
  World (self w) (<[path := File (H5 (<[name := ds]> dss))]> (fs w)).

(** The length of a series of the store's container along the stage
    axis. *)
Definition stage_length (w : world) (name : string) : option nat :=
  match fs w !! h5_path with
  | Some (File (H5 dss)) => (λ ds, length (ds_slices ds)) <$> dss !! name
  | _ => None
  end.

(** A replica state of a system with [a] atoms and [s] springs. *)
Definition well_shaped (a s : nat) (st : SystemState) : Prop :=
  (shape (positions st) = [a; 3%nat] ∧ wf_array (positions st)) ∧
  (shape (velocities st) = [a; 3%nat] ∧ wf_array (velocities st)) ∧
  (shape (spring_states st) = [s] ∧ wf_array (spring_states st)) ∧
  (shape (spring_energies st) = [s] ∧ wf_array (spring_energies st)) ∧
  (shape (lam st) = [] ∧ wf_array (lam st)) ∧
  (shape (energy st) = [] ∧ wf_array (energy st)).

(** The container holds the six series for [r] replicas, [a] atoms and
    [s] springs, and each of them holds the stage [stage]. *)
Definition holds_stage (dss : gmap string dataset) (r a s : nat) (stage : Z) : Prop :=
  ∀ name, name ∈ quantities →
    ∃ ds i, dss !! name = Some ds ∧ ds_outer ds = outer_dims r a s name ∧
            translate_int stage (length (ds_slices ds)) = Ok i.

(** The array [np.array] builds from items that all have shape [sh]. *)
Definition stack (sh : list nat) (items : list ndarray) : ndarray :=
  NdArray (length items :: sh) (concat (map data items)).

(** ** Backups

    The files [backup] looks at: the three sidecar files, then the
    container. *)
Definition backup_sources : list string :=
  [communicator_path; data_store_path; remd_runner_path; h5_path].

(** The disk once [path] has been copied into [Backup/] if it is present,
    and left alone if it is absent. *)
Definition backed_up (disk : gmap string node) (path : string) : gmap string node :=
  match disk !! path with
  | Some n => <[_make_backup_path path := n]> disk
  | None => disk
  end.

(** The disk after a backup of all four files. *)
Definition backup_image (disk : gmap string node) : gmap string node :=
  foldl backed_up disk backup_sources.

(** The run directory as the store lays it out: [Data/Backup] is a
    directory and none of the four files, nor its place in [Backup/], is
    taken by a directory. *)
Definition run_layout (disk : gmap string node) : Prop :=
  disk !! backup_dir = Some Dir ∧
  ∀ p, p ∈ backup_sources →
    disk !! p ≠ Some Dir ∧ disk !! _make_backup_path p ≠ Some Dir.

(** The store is ready for [backup]: it has a non-zero backup frequency
    [freq] and a live handle, and the container is on disk. *)
Definition backup_ready (w : world) (freq : Z) (dss : gmap string dataset) : Prop :=
  getattr (self w) "_backup_freq" = Ok (PyInt freq) ∧ freq ≠ 0 ∧
  (∃ path mode, getattr (self w) "_h5_file" = Ok (PyH5File path mode)) ∧
  fs w !! h5_path = Some (File (H5 dss)) ∧
  run_layout (fs w).

(** A communicator on which [initialize()] has not been called, with the
    rank attribute it carries.  Such an object is either built by
    [__init__], which assigns no rank, or rebuilt by unpickling, which
    runs [__setstate__] on the state [__getstate__] gave for another
    communicator [comm] (whatever was called on that one) and so carries
    the rank attribute of [comm], if it had one. *)
Inductive uninitialized : pyobj → option pyval → Prop :=
| constructed (n_atoms n_replicas n_springs : Z) :
    uninitialized (MPICommunicator.__init__ n_atoms n_replicas n_springs) None
| unpickled (comm : pyobj) :
    uninitialized (MPICommunicator.__setstate__ (MPICommunicator.__getstate__ comm))
      (attrs comm !! "_my_rank").

(** ** Sample stores, channels and disks *)

(** A store as the tests build it, [DataStore(500, 100, 4)], holding a
    live handle on the container. *)
Definition live_store : pyobj :=
  setattr (__init__ 500 100 4 100) "_h5_file" (PyH5File h5_path "a").

(** A channel after [initialize()] on the coordinating process. *)
Definition live_comm : pyobj :=
  setattr (setattr (MPICommunicator.__init__ 500 4 100) "_mpi_comm" PyMPIComm)
    "_my_rank" (PyInt 0).

(** A run directory in which only the two directories exist. *)
Definition bare_disk : gmap string node := {[ "Data" := Dir; "Data/Backup" := Dir ]}.

(** The smallest store, [DataStore(1, 1, 1)], and the world right after
    its [initialize('new')] in an empty run directory. *)
Definition small_store : pyobj := __init__ 1 1 1 100.

Definition fresh_world : world := (initialize "new" (World small_store ∅)).2.

(** A store for 500 atoms, 100 springs and 4 replicas, pointed at the run
    directory that [small_store] has just created. *)
Definition foreign_world : world := World (__init__ 500 100 4 100) (fs fresh_world).

(** The series of the container [small_store] has just created. *)
Definition fresh_series : gmap string dataset :=
  match fs fresh_world !! h5_path with
  | Some (File (H5 dss)) => dss
  | _ => ∅
  end.

(** A run of [small_store] with the default backup frequency of 100 that
    has saved the store and the channel, but no runner yet. *)
Definition running_world : world :=
  (save_communicator live_comm (save_data_store fresh_world).2).2.

(** A state of a system with one atom and one spring. *)
Definition unit_state : SystemState :=
  state_SystemState
    (NdArray [1; 3]%nat [PrimFloat.one; PrimFloat.one; PrimFloat.one])
    (NdArray [1; 3]%nat [PrimFloat.zero; PrimFloat.zero; PrimFloat.zero])
    (NdArray [1%nat] [PrimFloat.one])
    (NdArray [] [PrimFloat.one])
    (NdArray [] [PrimFloat.zero])
    (NdArray [1%nat] [PrimFloat.zero]).

(** ** Further notions

    Used by the properties beyond the stated claims. *)

(** The series [create_dataset] makes for the outer dimensions [outer]:
    one stage, filled with zeros, unbounded along the stage axis. *)
Definition new_series (outer : list nat) : dataset :=
  Dataset outer ((Some <$> outer) ++ [None])
    [replicate (nelems outer) PrimFloat.zero].

(** The container [_setup_h5_datasets] provisions. *)
Definition new_container (r a s : nat) : gmap string dataset :=
  <["energies" := new_series [r]]>
  (<["lambdas" := new_series [r]]>
  (<["spring_energies" := new_series [r; s]]>
  (<["spring_states" := new_series [r; s]]>
  (<["velocities" := new_series [r; a; 3%nat]]>
  (<["positions" := new_series [r; a; 3%nat]]> ∅))))).

(** The store knows its three dimensions. *)
Definition configured (store : pyobj) (r a s : nat) : Prop :=
  getattr store "_n_replicas" = Ok (PyInt (Z.of_nat r)) ∧
  getattr store "_n_atoms" = Ok (PyInt (Z.of_nat a)) ∧
  getattr store "_n_springs" = Ok (PyInt (Z.of_nat s)).

(** The disk after a successful [initialize('new')]. *)
Definition new_disk (r a s : nat) (disk : gmap string node) : gmap string node :=
  <[h5_path := File (H5 (new_container r a s))]>
  (<[backup_dir := Dir]> (<[data_dir := Dir]> disk)).


(** A computation that leaves the state as it finds it, whatever it
    returns or raises. *)
Definition read_only {S A} (c : M S A) : Prop := ∀ s, (c s).2 = s.

(** A computation that keeps the property [P] of the state, whatever it
    returns or raises. *)
Definition preserves {S A} (P : S → Prop) (c : M S A) : Prop := ∀ s, P s → P (c s).2.

(** What [load_Q(stage)] yields on a store whose container holds the
    series [dss]. *)
Definition read_slice (dss : gmap string dataset) (name : string) (stage : Z)
    : outcome ndarray :=
  match dss !! name with
  | None => Raise (KeyError name)
  | Some ds =>
      match translate_int stage (length (ds_slices ds)) with
      | Raise e => Raise e
      | Ok i =>
          match ds_slices ds !! i with
          | Some sl => Ok (NdArray (ds_outer ds) sl)
          | None => Raise (ValueError "Index out of range")
          end
      end
  end.

(** The three sidecar files, in the order [backup] copies them. *)
Definition sidecars : list string :=
  [communicator_path; data_store_path; remd_runner_path].

(** A file name: a string without a slash. *)
Fixpoint no_slash (s : string) : bool :=
  match s with
  | EmptyString => true
  | String c r => negb (Ascii.eqb c slash) && no_slash r
  end.

(** ** Sequences of calls *)

Section Calls.

Variable h5_broadcast : list nat → ndarray → option (list float).

(** The calls a run makes on an open store. *)
Inductive call : Type :=
| CallSave (name : string) (value : nparr) (stage : Z)
| CallSaveStates (states : list SystemState) (stage : Z)
| CallLoad (name : string) (stage : Z)
| CallLoadStates (stage : Z)
| CallBackup (stage : Z)
| CallSaveDataStore
| CallSaveCommunicator (comm : pyobj)
| CallSaveRunner (runner : pyobj)
| CallAppendTraj (state : SystemState)
| CallSavePermutationVector (perm_vec : list Z) (step : Z).



End Calls.



(** ** Proof tools *)

(** Case analysis on a lookup in an explicit dictionary. *)
Ltac each_attr H :=
  repeat (apply lookup_insert_Some in H as [[<- <-]|[? H]]; [try done |]);
  try (rewrite lookup_empty in H; discriminate H).

(** Membership in the two explicit lists. *)
Ltac in_quantities :=
  solve [unfold quantities; repeat (apply elem_of_cons; first [by left | right])].

Ltac in_sources :=
  solve [unfold backup_sources; repeat (apply elem_of_cons; first [by left | right])].

Lemma bind_ok {S A B} (c : M S A) (k : A → M S B) s a s' :
  c s = (Ok a, s') → bind c k s = k a s'.
Proof. intros H. unfold bind. by rewrite H. Qed.

Lemma getattr_setattr (obj : pyobj) (name : string) (v : pyval) :
  getattr (setattr obj name v) name = Ok v.
Proof. unfold getattr, setattr. simpl. by rewrite lookup_insert_eq. Qed.

Lemma self_attr_ok w name v :
  getattr (self w) name = Ok v → self_attr name w = (Ok v, w).
Proof. intros H. unfold self_attr. by rewrite H. Qed.

(** ** Initialisation *)

(** C1: [initialize('safe')] does not open a backup copy: it raises the
    unknown-mode error and leaves the store and the disk as they were,
    although the method's documentation lists [safe] among its modes. *)
Theorem initialize_safe_raises (w : world) :
  initialize "safe" w = (Raise (RuntimeError "Unknown value for mode=safe"), w).
Proof. reflexivity. Qed.

(** C10: when the data directory exists, [initialize('new')] raises the
    directory-exists error before touching anything: the store (its handle
    included) and the disk are exactly as before the call. *)
Theorem initialize_new_atomic_failure (w : world) :
  is_Some (fs w !! data_dir) →
  initialize "new" w = (Raise (RuntimeError "Data directory already exists"), w).
Proof.
  intros Hex. unfold initialize. simpl.
  unfold bind, os_path_exists.
  by rewrite bool_decide_eq_true_2.
Qed.

Lemma initialize_new_atomic_failure_witness :
  let w := World (__init__ 500 100 4 100) {[ "Data" := Dir; "Data/Backup" := Dir ]} in
  is_Some (fs w !! data_dir) ∧
  initialize "new" w = (Raise (RuntimeError "Data directory already exists"), w).
Proof.
  intros w.
  assert (H : is_Some (fs w !! data_dir)) by (vm_compute; eauto).
  split; [exact H | exact (initialize_new_atomic_failure w H)].
Defined.

(** ** The channel before initialisation *)

Lemma uninitialized_no_handle (c : pyobj) (saved : option pyval) :
  uninitialized c saved → getattr c "_mpi_comm" = Ok PyNone.
Proof. intros [n_atoms n_replicas n_springs|comm]; [reflexivity | apply getattr_setattr]. Qed.

Lemma uninitialized_rank (c : pyobj) (saved : option pyval) :
  uninitialized c saved →
  getattr c "_my_rank" =
    match saved with
    | Some r => Ok r
    | None => Raise (AttributeError "MPICommunicator" "_my_rank")
    end.
Proof.
  intros [n_atoms n_replicas n_springs|comm]; [reflexivity |].
  unfold MPICommunicator.__setstate__, MPICommunicator.__getstate__, getattr, setattr.
  simpl. rewrite lookup_insert_ne by done.
  destruct (attrs comm !! "_my_rank") as [v|] eqn:Hv.
  - assert (Hl : filter (λ kv : string * pyval, ¬ kv.1 = "_mpi_comm") (attrs comm)
                   !! "_my_rank" = Some v)
      by (apply map_lookup_filter_Some; split; [exact Hv | simpl; congruence]).
    by rewrite Hl.
  - assert (Hl : filter (λ kv : string * pyval, ¬ kv.1 = "_mpi_comm") (attrs comm)
                   !! "_my_rank" = None)
      by (apply map_lookup_filter_None; by left).
    by rewrite Hl.
Qed.

Section Channel.

Variable mpi : Type.
Variable payload : Type.
Variable Get_rank : M mpi Z.
Variable scatter gather bcast : option payload → Z → M mpi payload.
Variable np_array_of : payload → payload.

Abbreviation cstate := (MPICommunicator.cstate mpi).
Abbreviation fails_with c s e := (c s = (Raise e, s)) (only parsing).

(** C4, as the code has it: on a communicator on which [initialize()]
    has not been called, whether [__init__] built it or unpickling did,
    each of the ten transfer primitives fails, for whatever payload and
    whatever state of the process group, with the attribute error of
    calling the collective on the unset handle; nothing is sent and the
    object is unchanged.  Reading [rank] fails, for the attribute that
    was never assigned, on a communicator that was just constructed and
    on one unpickled from a communicator without a rank; on one unpickled
    from a communicator that had a rank it returns that rank, since
    [__getstate__] drops the handle only. *)
Theorem channel_before_initialize (c : pyobj) (saved : option pyval) (g : mpi) (x : payload) :
  uninitialized c saved →
  let s : cstate := MPICommunicator.CState mpi c g in
  let no_handle meth := AttributeError "NoneType" meth in
  fails_with (MPICommunicator.broadcast_lambdas_to_slaves mpi payload scatter x) s
    (no_handle "scatter") ∧
  fails_with (MPICommunicator.recieve_lambda_from_master mpi payload scatter) s
    (no_handle "scatter") ∧
  fails_with (MPICommunicator.broadcast_states_to_slaves mpi payload scatter x) s
    (no_handle "scatter") ∧
  fails_with (MPICommunicator.recieve_state_from_master mpi payload scatter) s
    (no_handle "scatter") ∧
  fails_with (MPICommunicator.gather_states_from_slaves mpi payload gather x) s
    (no_handle "gather") ∧
  fails_with (MPICommunicator.send_state_to_master mpi payload gather x) s
    (no_handle "gather") ∧
  fails_with (MPICommunicator.broadcast_states_for_energy_calc_to_slaves mpi payload bcast x) s
    (no_handle "bcast") ∧
  fails_with (MPICommunicator.recieve_states_for_energy_calc_from_master mpi payload bcast) s
    (no_handle "bcast") ∧
  fails_with (MPICommunicator.gather_energies_from_slaves mpi payload gather np_array_of x) s
    (no_handle "gather") ∧
  fails_with (MPICommunicator.send_energies_to_master mpi payload gather x) s
    (no_handle "gather") ∧
  MPICommunicator.rank mpi s =
    (match saved with
     | Some r => Ok r
     | None => Raise (AttributeError "MPICommunicator" "_my_rank")
     end, s).
Proof.
  intros Hu s no_handle.
  pose proof (uninitialized_no_handle c saved Hu) as Hh.
  pose proof (uninitialized_rank c saved Hu) as Hr.
  split_and!;
    unfold MPICommunicator.broadcast_lambdas_to_slaves,
      MPICommunicator.recieve_lambda_from_master,
      MPICommunicator.broadcast_states_to_slaves,
      MPICommunicator.recieve_state_from_master,
      MPICommunicator.gather_states_from_slaves,
      MPICommunicator.send_state_to_master,
      MPICommunicator.broadcast_states_for_energy_calc_to_slaves,
      MPICommunicator.recieve_states_for_energy_calc_from_master,
      MPICommunicator.gather_energies_from_slaves,
      MPICommunicator.send_energies_to_master,
      MPICommunicator.rank, bind, MPICommunicator.self_attr;
    simpl; rewrite ?Hh, ?Hr; reflexivity.
Qed.

End Channel.

Lemma channel_before_initialize_witness :
  ∃ c,
    uninitialized c (Some (PyInt 0)) ∧
    MPICommunicator.send_state_to_master Z unit (λ _ _ g, (Ok tt, g)) tt
      (MPICommunicator.CState Z c 0)
      = (Raise (AttributeError "NoneType" "gather"), MPICommunicator.CState Z c 0) ∧
    MPICommunicator.rank Z (MPICommunicator.CState Z c 0)
      = (Ok (PyInt 0), MPICommunicator.CState Z c 0).
Proof.
  exists (MPICommunicator.__setstate__ (MPICommunicator.__getstate__ live_comm)).
  assert (H : uninitialized
                (MPICommunicator.__setstate__ (MPICommunicator.__getstate__ live_comm))
                (Some (PyInt 0)))
    by exact (unpickled live_comm).
  split; [exact H |].
  pose proof (channel_before_initialize Z unit (λ _ _ g, (Ok tt, g)) (λ _ _ g, (Ok tt, g))
                (λ _ _ g, (Ok tt, g)) (λ p, p) _ _ 0 tt H) as Hc.
  cbv zeta in Hc.
  destruct Hc as (_ & _ & _ & _ & _ & Hsend & _ & _ & _ & _ & Hrank).
  split; [exact Hsend | exact Hrank].
Defined.

(** C4, as the specification states it, fails: the communicator that
    [load_communicator] returns after [save_communicator] stored an
    initialised one is a communicator on which [initialize()] has not been
    called, its handle is unset, and yet its [rank] is defined: it is the
    rank that was pickled. *)
Lemma unpickled_channel_has_rank :
  ∃ w' c,
    save_communicator live_comm fresh_world = (Ok tt, w') ∧
    load_communicator w' = (Ok c, w') ∧
    uninitialized c (Some (PyInt 0)) ∧
    getattr c "_mpi_comm" = Ok PyNone ∧
    MPICommunicator.rank Z (MPICommunicator.CState Z c 0)
      = (Ok (PyInt 0), MPICommunicator.CState Z c 0).
Proof.
  exists (save_communicator live_comm fresh_world).2,
         (MPICommunicator.__setstate__ (MPICommunicator.__getstate__ live_comm)).
  split_and!.
  - vm_compute. reflexivity.
  - vm_compute. reflexivity.
  - exact (unpickled live_comm).
  - reflexivity.
  - reflexivity.
Qed.

(** ** Serialisation of the store and of the channel *)

Lemma parent_exists_in_dir (disk : gmap string node) (p d : string) :
  os_path_dirname p = d → all_slashes d = false → disk !! d = Some Dir →
  parent_exists disk p = true.
Proof. intros Hd Hs Hdir. unfold parent_exists. by rewrite Hd, Hs, Hdir. Qed.

Lemma open_w_ok (w : world) (p d : string) :
  os_path_dirname p = d → all_slashes d = false → fs w !! d = Some Dir →
  fs w !! p ≠ Some Dir →
  open_w p w = (Ok tt, World (self w) (<[p := File Raw]> (fs w))).
Proof.
  intros Hd Hs Hdir Hp. unfold open_w.
  rewrite (parent_exists_in_dir _ _ _ Hd Hs Hdir).
  by destruct (fs w !! p) as [[|c]|].
Qed.

Lemma pickle_dump_ok getstate (obj : pyobj) (p : string) (w : world) :
  map_Forall (λ _ v, picklable v = true) (getstate obj) →
  pickle_dump getstate obj p w =
    (Ok tt, World (self w) (<[p := File (Pickled (cls obj) (getstate obj))]> (fs w))).
Proof. intros H. unfold pickle_dump. by rewrite bool_decide_eq_true_2. Qed.

Lemma getstate_of_picklable (obj : pyobj) (handle : string) :
  (cls obj = ClsDataStore ∧ handle = "_h5_file" ∨
   cls obj = ClsMPICommunicator ∧ handle = "_mpi_comm") →
  (∀ k v, attrs obj !! k = Some v → k ≠ handle → picklable v = true) →
  map_Forall (λ _ v, picklable v = true) (getstate_of obj).
Proof.
  intros Hcls Hp k v Hkv. unfold getstate_of in Hkv.
  destruct Hcls as [[Hc ->]|[Hc ->]]; rewrite Hc in Hkv;
    apply map_lookup_filter_Some in Hkv as [Hkv Hk]; simpl in Hk;
    apply (Hp k v Hkv); [by rewrite list_elem_of_singleton in Hk | done].
Qed.

(** C9: a store saved with [save_data_store] and a channel saved with
    [save_communicator] come back from the matching load with the runtime
    handle unset, whatever the handle was when they were saved (a live
    file, a live communicator, or anything else), and with every other
    attribute as it was saved. *)
Theorem reload_carries_no_handle (store comm : pyobj) (disk : gmap string node) :
  cls store = ClsDataStore →
  cls comm = ClsMPICommunicator →
  (∀ k v, attrs store !! k = Some v → k ≠ "_h5_file" → picklable v = true) →
  (∀ k v, attrs comm !! k = Some v → k ≠ "_mpi_comm" → picklable v = true) →
  disk !! data_dir = Some Dir →
  disk !! data_store_path ≠ Some Dir →
  disk !! communicator_path ≠ Some Dir →
  ∃ w1 w2 store2 comm2,
    save_data_store (World store disk) = (Ok tt, w1) ∧
    load_data_store w1 = (Ok store2, w1) ∧
    attrs store2 !! "_h5_file" = Some PyNone ∧
    (∀ k, k ≠ "_h5_file" → attrs store2 !! k = attrs store !! k) ∧
    save_communicator comm w1 = (Ok tt, w2) ∧
    load_communicator w2 = (Ok comm2, w2) ∧
    attrs comm2 !! "_mpi_comm" = Some PyNone ∧
    (∀ k, k ≠ "_mpi_comm" → attrs comm2 !! k = attrs comm !! k).
Proof.
  intros Hcs Hcc Hps Hpc Hdir Hf1 Hf2.
  pose proof (getstate_of_picklable store "_h5_file" (or_introl (conj Hcs eq_refl)) Hps) as Hs.
  pose proof (getstate_of_picklable comm "_mpi_comm" (or_intror (conj Hcc eq_refl)) Hpc) as Hc.
  set (w0 := World store disk).
  set (w0' := World store (<[data_store_path := File Raw]> disk)).
  set (w1 := World store (<[data_store_path := File (Pickled ClsDataStore (getstate_of store))]>
                             (fs w0'))).
  set (w1' := World store (<[communicator_path := File Raw]> (fs w1))).
  set (w2 := World store (<[communicator_path := File (Pickled ClsMPICommunicator (getstate_of comm))]>
                             (fs w1'))).
  exists w1, w2, (__setstate__ (getstate_of store)), (MPICommunicator.__setstate__ (getstate_of comm)).
  assert (Hsave1 : save_data_store w0 = (Ok tt, w1)).
  { unfold save_data_store.
    rewrite (bind_ok _ _ w0 tt w0') by (apply (open_w_ok w0 _ "Data"); done).
    rewrite (bind_ok _ _ w0' w0' w0') by done.
    rewrite (pickle_dump_ok _ _ _ _ Hs). simpl. by rewrite Hcs. }
  assert (Hsave2 : save_communicator comm w1 = (Ok tt, w2)).
  { unfold save_communicator.
    rewrite (bind_ok _ _ w1 tt w1').
    - rewrite (pickle_dump_ok _ _ _ _ Hc). simpl. by rewrite Hcc.
    - apply (open_w_ok w1 _ "Data"); [done | done | | ]; simpl.
      + by rewrite !lookup_insert_ne.
      + by rewrite !lookup_insert_ne. }
  split_and!; try done.
  - unfold load_data_store.
    rewrite (bind_ok _ _ w1 (Pickled ClsDataStore (getstate_of store)) w1); [done |].
    unfold open_r. simpl. by rewrite lookup_insert_eq.
  - simpl. by rewrite lookup_insert_eq.
  - intros k Hk. simpl. rewrite lookup_insert_ne by done.
    unfold getstate_of. rewrite Hcs. unfold __getstate__.
    destruct (attrs store !! k) as [v|] eqn:Hv.
    + apply map_lookup_filter_Some. split; [done | simpl].
      by rewrite list_elem_of_singleton.
    + apply map_lookup_filter_None. left. done.
  - unfold load_communicator.
    rewrite (bind_ok _ _ w2 (Pickled ClsMPICommunicator (getstate_of comm)) w2); [done |].
    unfold open_r. simpl. by rewrite lookup_insert_eq.
  - simpl. by rewrite lookup_insert_eq.
  - intros k Hk. simpl. rewrite lookup_insert_ne by done.
    unfold getstate_of. rewrite Hcc. unfold MPICommunicator.__getstate__.
    destruct (attrs comm !! k) as [v|] eqn:Hv.
    + apply map_lookup_filter_Some. split; [done | simpl; congruence].
    + apply map_lookup_filter_None. left. done.
Qed.

Lemma reload_carries_no_handle_witness :
  ∃ w1 w2 store2 comm2,
    save_data_store (World live_store bare_disk) = (Ok tt, w1) ∧
    load_data_store w1 = (Ok store2, w1) ∧
    attrs store2 !! "_h5_file" = Some PyNone ∧
    (∀ k, k ≠ "_h5_file" → attrs store2 !! k = attrs live_store !! k) ∧
    save_communicator live_comm w1 = (Ok tt, w2) ∧
    load_communicator w2 = (Ok comm2, w2) ∧
    attrs comm2 !! "_mpi_comm" = Some PyNone ∧
    (∀ k, k ≠ "_mpi_comm" → attrs comm2 !! k = attrs live_comm !! k).
Proof.
  apply (reload_carries_no_handle live_store live_comm bare_disk).
  - reflexivity.
  - reflexivity.
  - intros k v Hkv Hk. simpl in Hkv. by each_attr Hkv.
  - intros k v Hkv Hk. simpl in Hkv. by each_attr Hkv.
  - reflexivity.
  - vm_compute. discriminate.
  - vm_compute. discriminate.
Defined.

(** ** Opening an existing container *)

Lemma h5py_File_append_existing (w : world) (dss : gmap string dataset) (path : string) :
  fs w !! path = Some (File (H5 dss)) →
  h5py_File path "a" w = (Ok (PyH5File path "a"), w).
Proof. intros H. unfold h5py_File. simpl. by rewrite H. Qed.

(** C3, as the code has it: [initialize('existing')] opens the container
    file for read/append and succeeds for every container, whatever series
    it holds and whatever their dimensions.  It compares nothing with the
    construction parameters, raises no error, and leaves the disk as it
    was; only the handle of the store changes. *)
Theorem initialize_existing_opens_unchecked (w : world) (dss : gmap string dataset) :
  fs w !! h5_path = Some (File (H5 dss)) →
  initialize "existing" w =
    (Ok tt, World (setattr (self w) "_h5_file" (PyH5File h5_path "a")) (fs w)).
Proof.
  intros H. unfold initialize. simpl.
  by rewrite (bind_ok _ _ w _ w (h5py_File_append_existing w dss _ H)).
Qed.

Lemma initialize_existing_opens_unchecked_witness :
  (∃ dss, fs foreign_world !! h5_path = Some (File (H5 dss))) ∧
  initialize "existing" foreign_world =
    (Ok tt, World (setattr (self foreign_world) "_h5_file" (PyH5File h5_path "a"))
              (fs foreign_world)).
Proof.
  assert (H : ∃ dss, fs foreign_world !! h5_path = Some (File (H5 dss)))
    by (vm_compute; eauto).
  split; [exact H |].
  destruct H as [dss H].
  exact (initialize_existing_opens_unchecked foreign_world dss H).
Defined.

(** C3, as the specification states it, fails: a store built for 4
    replicas of 500 atoms opens, without error, a container whose series
    were laid out for 1 replica of 1 atom. *)
Lemma initialize_existing_accepts_mismatch :
  ∃ dss,
    fs foreign_world !! h5_path = Some (File (H5 dss)) ∧
    ¬ series_match (self foreign_world) dss ∧
    (initialize "existing" foreign_world).1 = Ok tt.
Proof.
  assert (H : ∃ dss, fs foreign_world !! h5_path = Some (File (H5 dss)) ∧
                     ds_outer <$> dss !! "positions" = Some [1; 1; 3]%nat)
    by (vm_compute; eauto).
  destruct H as (dss & Hdss & Hpos). exists dss. split_and!.
  - exact Hdss.
  - intros (r & a & s & Hr & Ha & Hs & Hall).
    destruct (Hall "positions") as (ds & Hds & Hout).
    { unfold quantities. apply elem_of_cons. by left. }
    rewrite Hds in Hpos. simpl in Hpos. rewrite Hout in Hpos.
    vm_compute in Hr. vm_compute in Hpos.
    injection Hpos as Hr' _. injection Hr as Hr.
    rewrite Hr' in Hr. discriminate Hr.
  - reflexivity.
Qed.

(** ** One series: indexing, writing, reading *)

Lemma translate_int_nonneg (s : Z) (n : nat) :
  0 ≤ s < Z.of_nat n → translate_int s n = Ok (Z.to_nat s).
Proof.
  intros H. unfold translate_int.
  destruct (Z.ltb_spec s 0); [lia |].
  destruct (Z.leb_spec 0 s); [| lia].
  destruct (Z.ltb_spec s (Z.of_nat n)); [done | lia].
Qed.

Lemma translate_int_from_end (s : Z) (n : nat) :
  - Z.of_nat n ≤ s < 0 → translate_int s n = Ok (Z.to_nat (Z.of_nat n + s)).
Proof.
  intros H. unfold translate_int.
  destruct (Z.ltb_spec s 0); [| lia].
  destruct (Z.leb_spec 0 (Z.of_nat n + s)); [| lia].
  destruct (Z.ltb_spec (Z.of_nat n + s) (Z.of_nat n)); [done | lia].
Qed.

Lemma translate_int_beyond (s : Z) (n : nat) :
  Z.of_nat n ≤ s → translate_int s n = Raise (ValueError "Index out of range").
Proof.
  intros H. unfold translate_int.
  destruct (Z.ltb_spec s 0); [lia |].
  destruct (Z.ltb_spec s (Z.of_nat n)); [lia |].
  by rewrite andb_false_r.
Qed.

Lemma translate_int_bound (s : Z) (n i : nat) :
  translate_int s n = Ok i → (i < n)%nat.
Proof.
  unfold translate_int.
  set (e := if s <? 0 then Z.of_nat n + s else s).
  destruct (Z.leb_spec 0 e); [| done].
  destruct (Z.ltb_spec e (Z.of_nat n)); [| done].
  simpl. intros [= <-]. lia.
Qed.

Lemma h5_datasets_ok (w : world) (path : string) (dss : gmap string dataset) :
  fs w !! path = Some (File (H5 dss)) → h5_datasets path w = (Ok dss, w).
Proof. intros H. unfold h5_datasets. by rewrite H. Qed.

Lemma h5_getitem_ok (w : world) (path mode name : string) (dss : gmap string dataset)
    (ds : dataset) :
  fs w !! path = Some (File (H5 dss)) → dss !! name = Some ds →
  h5_getitem (PyH5File path mode) name w = (Ok (DsRef path mode name), w).
Proof.
  intros Hf Hds. unfold h5_getitem.
  rewrite (bind_ok _ _ w dss w) by by apply h5_datasets_ok.
  by rewrite Hds.
Qed.

Lemma deref_ok (w : world) (path mode name : string) (dss : gmap string dataset)
    (ds : dataset) :
  fs w !! path = Some (File (H5 dss)) → dss !! name = Some ds →
  deref (DsRef path mode name) w = (Ok ds, w).
Proof.
  intros Hf Hds. unfold deref. simpl.
  rewrite (bind_ok _ _ w dss w) by by apply h5_datasets_ok.
  by rewrite Hds.
Qed.

Lemma opened_with_series w path mode name dss ds :
  opened w path mode dss →
  opened (with_series w path name dss ds) path mode (<[name := ds]> dss).
Proof.
  intros [Hh Hf]. split; [done |]. simpl. by rewrite lookup_insert_eq.
Qed.

Section Series.

Variable h5_broadcast : list nat → ndarray → option (list float).

(** Reading a stage the series holds returns the stored slice. *)
Lemma load_series_ok w path mode dss name ds stage i sl :
  opened w path mode dss → dss !! name = Some ds →
  translate_int stage (length (ds_slices ds)) = Ok i →
  ds_slices ds !! i = Some sl →
  load_series name stage w = (Ok (NdArray (ds_outer ds) sl), w).
Proof.
  intros [Hh Hf] Hds Hi Hsl. unfold load_series.
  rewrite (bind_ok _ _ w _ w (self_attr_ok _ _ _ Hh)).
  rewrite (bind_ok _ _ w _ w (h5_getitem_ok _ _ _ _ _ _ Hf Hds)).
  unfold dataset_getitem.
  rewrite (bind_ok _ _ w _ w (deref_ok _ _ _ _ _ _ Hf Hds)).
  unfold lift_outcome at 1. unfold bind at 1. rewrite Hi. by rewrite Hsl.
Qed.

(** Writing a value of the series' shape into a stage the series holds
    succeeds and replaces exactly that slice. *)
Lemma save_series_ok w path mode dss name ds stage i v :
  opened w path mode dss → mode ≠ "r" → dss !! name = Some ds →
  translate_int stage (length (ds_slices ds)) = Ok i →
  shape v = ds_outer ds →
  save_series h5_broadcast name (NumArr v) stage w =
    (Ok tt, with_series w path name dss (written ds i v)).
Proof.
  intros [Hh Hf] Hm Hds Hi Hsh. unfold save_series.
  rewrite (bind_ok _ _ w _ w (self_attr_ok _ _ _ Hh)).
  rewrite (bind_ok _ _ w _ w (h5_getitem_ok _ _ _ _ _ _ Hf Hds)).
  unfold dataset_setitem.
  rewrite (bind_ok _ _ w _ w (deref_ok _ _ _ _ _ _ Hf Hds)).
  unfold lift_outcome at 1. unfold bind at 1. rewrite Hi.
  rewrite bool_decide_eq_true_2 by done.
  unfold bind at 1. unfold ret at 1. simpl.
  rewrite bool_decide_eq_false_2 by done.
  by rewrite (bind_ok _ _ w _ w (h5_datasets_ok _ _ _ Hf)).
Qed.

(** Writing at or beyond the current length of the stage axis raises the
    index error, whatever the value, and changes nothing: the series is
    not resized. *)
Lemma save_series_beyond w path mode dss name ds stage v :
  opened w path mode dss → dss !! name = Some ds →
  Z.of_nat (length (ds_slices ds)) ≤ stage →
  save_series h5_broadcast name (NumArr v) stage w =
    (Raise (ValueError "Index out of range"), w).
Proof.
  intros [Hh Hf] Hds Hi. unfold save_series.
  rewrite (bind_ok _ _ w _ w (self_attr_ok _ _ _ Hh)).
  rewrite (bind_ok _ _ w _ w (h5_getitem_ok _ _ _ _ _ _ Hf Hds)).
  unfold dataset_setitem.
  rewrite (bind_ok _ _ w _ w (deref_ok _ _ _ _ _ _ Hf Hds)).
  unfold lift_outcome at 1. unfold bind at 1.
  by rewrite (translate_int_beyond _ _ Hi).
Qed.

(** Round trip of one slice: what was written at a stage is what is read
    there. *)
Lemma save_load_series w path mode dss name ds stage i v :
  opened w path mode dss → mode ≠ "r" → dss !! name = Some ds →
  translate_int stage (length (ds_slices ds)) = Ok i →
  shape v = ds_outer ds →
  ∃ w', save_series h5_broadcast name (NumArr v) stage w = (Ok tt, w') ∧
        load_series name stage w' = (Ok v, w').
Proof.
  intros Ho Hm Hds Hi Hsh.
  exists (with_series w path name dss (written ds i v)). split.
  - by apply (save_series_ok w path mode).
  - pose proof (translate_int_bound _ _ _ Hi) as Hlt.
    rewrite (load_series_ok _ path mode (<[name := written ds i v]> dss) name
               (written ds i v) stage i (data v)).
    + simpl. rewrite <- Hsh. by destruct v.
    + by apply opened_with_series.
    + by rewrite lookup_insert_eq.
    + simpl. by rewrite length_insert.
    + simpl. by apply list_lookup_insert_eq.
Qed.

(** The same with the stage given by its bounds: a stage counted from the
    start, or a negative one counted from the end. *)
Lemma save_load_held_stage w path mode dss name ds stage v :
  opened w path mode dss → mode ≠ "r" → dss !! name = Some ds →
  - Z.of_nat (length (ds_slices ds)) ≤ stage < Z.of_nat (length (ds_slices ds)) →
  shape v = ds_outer ds →
  ∃ w', save_series h5_broadcast name (NumArr v) stage w = (Ok tt, w') ∧
        load_series name stage w' = (Ok v, w').
Proof.
  intros Ho Hm Hds Hs Hsh.
  destruct (Z.lt_ge_cases stage 0).
  - eapply save_load_series; eauto. apply translate_int_from_end. lia.
  - eapply save_load_series; eauto. apply translate_int_nonneg. lia.
Qed.

(** No write changes the length of any series: a series is never grown
    and never shrunk, whether the write succeeds or raises. *)
Lemma save_series_keeps_lengths name value stage w name' :
  stage_length (save_series h5_broadcast name value stage w).2 name' = stage_length w name'.
Proof.
  unfold save_series, self_attr, bind.
  destruct (getattr (self w) "_h5_file") as [f|e]; [| done].
  unfold h5_getitem.
  destruct f as [| | |path mode|]; try done.
  unfold bind, h5_datasets.
  destruct (fs w !! path) as [[|[| |dss]]|] eqn:Hp; try done.
  destruct (dss !! name) as [ds|] eqn:Hds; [| done].
  unfold ret, dataset_setitem.
  destruct value as [v|]; [| done].
  unfold bind, deref, bind, h5_datasets. simpl. rewrite Hp, Hds. unfold ret, lift_outcome.
  destruct (translate_int stage (length (ds_slices ds))) as [i|]; [| done].
  assert (Hw : ∀ elems,
    stage_length (with_series w path name dss
                    (Dataset (ds_outer ds) (ds_maxshape ds) (<[i := elems]> (ds_slices ds))))
      name' = stage_length w name').
  { intros elems. unfold stage_length, with_series. simpl.
    destruct (decide (path = h5_path)) as [->|Hne].
    - rewrite lookup_insert_eq, Hp.
      destruct (decide (name = name')) as [->|Hn].
      + rewrite lookup_insert_eq, Hds. simpl. by rewrite length_insert.
      + by rewrite lookup_insert_ne.
    - by rewrite lookup_insert_ne. }
  destruct (bool_decide (shape v = ds_outer ds)).
  - destruct (bool_decide (mode = "r")); [done |].
    rewrite Hp. unfold write_file, set_fs, modify. simpl. apply Hw.
  - destruct (h5_broadcast (ds_outer ds) v) as [d|]; [| done].
    destruct (bool_decide (mode = "r")); [done |].
    rewrite Hp. unfold write_file, set_fs, modify. simpl. apply Hw.
Qed.

End Series.

(** ** Writing past the end of the stage axis *)

Section Growth.

Variable h5_broadcast : list nat → ndarray → option (list float).

Abbreviation index_error := (ValueError "Index out of range").

Lemma fresh_world_initialized :
  initialize "new" (World small_store ∅) = (Ok tt, fresh_world).
Proof. reflexivity. Qed.

Lemma fresh_world_lengths (name : string) :
  name ∈ quantities → stage_length fresh_world name = Some 1%nat.
Proof.
  unfold quantities. rewrite !elem_of_cons, elem_of_nil.
  intros [->|[->|[->|[->|[->|[->|[]]]]]]]; reflexivity.
Qed.

Lemma fresh_world_opened : opened fresh_world h5_path "w-" fresh_series.
Proof. by split. Qed.

Lemma fresh_series_held (name : string) :
  name ∈ quantities →
  ∃ ds, fresh_series !! name = Some ds ∧ length (ds_slices ds) = 1%nat.
Proof.
  unfold quantities. rewrite !elem_of_cons, elem_of_nil.
  intros [->|[->|[->|[->|[->|[->|[]]]]]]]; vm_compute; eauto.
Qed.

Lemma save_past_fresh_end (name : string) (v : ndarray) (k : Z) :
  name ∈ quantities → 1 ≤ k →
  save_series h5_broadcast name (NumArr v) k fresh_world = (Raise index_error, fresh_world).
Proof.
  intros Hn Hk. destruct (fresh_series_held name Hn) as (ds & Hds & Hlen).
  apply (save_series_beyond h5_broadcast _ h5_path "w-" fresh_series name ds).
  - exact fresh_world_opened.
  - exact Hds.
  - rewrite Hlen. exact Hk.
Qed.

(** C2, on a new store: after [initialize('new')] every series has
    stage-axis length 1, and for every stage [k] at or past that length
    [save_Q(v, k)] of each of the six quantities raises the index error,
    for every value [v], and leaves the store and the disk unchanged.
    The series is not grown, so the write does not succeed. *)
Theorem save_past_end_does_not_grow (v : ndarray) (k : Z) :
  1 ≤ k →
  initialize "new" (World small_store ∅) = (Ok tt, fresh_world) ∧
  Forall (λ name, stage_length fresh_world name = Some 1%nat) quantities ∧
  save_positions h5_broadcast (NumArr v) k fresh_world = (Raise index_error, fresh_world) ∧
  save_velocities h5_broadcast (NumArr v) k fresh_world = (Raise index_error, fresh_world) ∧
  save_spring_states h5_broadcast (NumArr v) k fresh_world = (Raise index_error, fresh_world) ∧
  save_spring_energies h5_broadcast (NumArr v) k fresh_world = (Raise index_error, fresh_world) ∧
  save_lambdas h5_broadcast (NumArr v) k fresh_world = (Raise index_error, fresh_world) ∧
  save_energies h5_broadcast (NumArr v) k fresh_world = (Raise index_error, fresh_world).
Proof.
  intros Hk. split; [reflexivity |]. split.
  - apply Forall_forall. intros name Hin. by apply fresh_world_lengths.
  - split_and!; apply save_past_fresh_end; first [in_quantities | exact Hk].
Qed.

(** C5, at the first stage past a new store: for each of the six
    quantities, [save_Q(v, 1)] followed by [load_Q(1)] does not return
    [v]; the write raises the index error, and so does the read. *)
Theorem save_load_past_end_raises (v : ndarray) :
  let then_load (save : M world unit) (load : M world ndarray) :=
    bind save (λ _, load) in
  then_load (save_positions h5_broadcast (NumArr v) 1) (load_positions 1) fresh_world
    = (Raise index_error, fresh_world) ∧
  then_load (save_velocities h5_broadcast (NumArr v) 1) (load_velocities 1) fresh_world
    = (Raise index_error, fresh_world) ∧
  then_load (save_spring_states h5_broadcast (NumArr v) 1) (load_spring_states 1) fresh_world
    = (Raise index_error, fresh_world) ∧
  then_load (save_spring_energies h5_broadcast (NumArr v) 1) (load_spring_energies 1)
    fresh_world = (Raise index_error, fresh_world) ∧
  then_load (save_lambdas h5_broadcast (NumArr v) 1) (load_lambdas 1) fresh_world
    = (Raise index_error, fresh_world) ∧
  then_load (save_energies h5_broadcast (NumArr v) 1) (load_energies 1) fresh_world
    = (Raise index_error, fresh_world) ∧
  load_positions 1 fresh_world = (Raise index_error, fresh_world) ∧
  load_energies 1 fresh_world = (Raise index_error, fresh_world).
Proof. intros then_load. repeat split; reflexivity. Qed.

(** C6, at the first stage past a new store: [save_states(states, 1)]
    followed by [load_states(1)] returns no states, whatever the states
    are; it raises on the first series and leaves the store and the disk
    unchanged.  For a well-shaped state the error is the index error. *)
Theorem save_load_states_past_end_raises (states : list SystemState) :
  let save_then_load sts :=
    bind (save_states h5_broadcast sts 1) (λ _, load_states 1) fresh_world in
  (∃ e, save_then_load states = (Raise e, fresh_world)) ∧
  save_then_load [unit_state] = (Raise index_error, fresh_world).
Proof.
  intros save_then_load. split; [| reflexivity].
  unfold save_then_load, save_states, save_positions, save_series.
  destruct (np_array (map positions states)) as [a|].
  - exists index_error. reflexivity.
  - eexists. reflexivity.
Qed.

End Growth.

Lemma save_past_end_does_not_grow_witness :
  let v := NdArray [1; 1; 3]%nat [PrimFloat.zero; PrimFloat.zero; PrimFloat.zero] in
  let no_broadcast : list nat → ndarray → option (list float) := λ _ _, None in
  1 ≤ 1 ∧
  save_positions no_broadcast (NumArr v) 1 fresh_world
    = (Raise (ValueError "Index out of range"), fresh_world).
Proof.
  intros v no_broadcast.
  assert (H : 1 ≤ 1) by lia.
  split; [exact H |].
  exact (proj1 (proj2 (proj2 (save_past_end_does_not_grow no_broadcast v 1 H)))).
Defined.

(** ** Stacking and unstacking arrays *)

Lemma concat_chunk {A} (ls : list (list A)) (n i : nat) (l : list A) :
  Forall (λ l, length l = n) ls → ls !! i = Some l →
  take n (drop (i * n)%nat (concat ls)) = l.
Proof.
  revert i. induction ls as [|l0 ls IH]; intros i Hall Hi; [done |].
  apply Forall_cons in Hall as [Hl0 Hall]. destruct i as [|i]; simpl in *.
  - injection Hi as ->. by apply take_app_length'.
  - rewrite drop_app_add' by done. by apply IH.
Qed.

Lemma np_array_stack (items : list ndarray) (sh : list nat) :
  items ≠ [] → Forall (λ a, shape a = sh) items →
  np_array items = NumArr (stack sh items).
Proof.
  intros Hne Hall. destruct items as [|a items]; [done |]. unfold np_array.
  pose proof (Forall_lookup_1 _ _ 0%nat a Hall eq_refl) as Ha. simpl in Ha.
  assert (Hfb : forallb (same_shape (shape a)) (a :: items) = true).
  { apply forallb_forall. intros x Hx%list_elem_of_In.
    unfold same_shape. apply bool_decide_eq_true_2.
    rewrite Forall_forall in Hall. rewrite (Hall x Hx). done. }
  by rewrite Hfb, Ha.
Qed.

Lemma getitem_stack (items : list ndarray) (sh : list nat) (i : nat) (a : ndarray) :
  Forall (λ a, shape a = sh ∧ wf_array a) items → items !! i = Some a →
  ndarray_getitem (stack sh items) i = Ok a.
Proof.
  intros Hall Hi. unfold ndarray_getitem, stack. simpl.
  rewrite bool_decide_eq_true_2 by by eapply lookup_lt_Some.
  destruct (Forall_lookup_1 _ _ _ _ Hall Hi) as [Hsh Hwf].
  rewrite (concat_chunk _ _ _ (data a)).
  - rewrite <- Hsh. by destruct a.
  - apply Forall_fmap. eapply Forall_impl; [exact Hall |].
    intros x [Hx Hw]. simpl. unfold wf_array in Hw. by rewrite Hw, Hx.
  - change (map data items) with (data <$> items).
    by rewrite list_lookup_fmap, Hi.
Qed.

Lemma map_M_seq {St B} (f : nat → M St B) (l : list B) (s : St) (j : nat) :
  (∀ i x, l !! i = Some x → f (j + i)%nat s = (Ok x, s)) →
  map_M f (seq j (length l)) s = (Ok l, s).
Proof.
  revert j. induction l as [|x l IH]; intros j Hf; [done |]. simpl.
  rewrite (bind_ok _ _ s x s).
  - rewrite (bind_ok _ _ s l s); [done |].
    apply IH. intros i y Hi.
    replace (S j + i)%nat with (j + S i)%nat by lia. by apply Hf.
  - rewrite <- (Nat.add_0_r j). by apply Hf.
Qed.

(** ** All six series: the states of one stage *)

Lemma field_stack (f : SystemState → ndarray) (sh : list nat) (states : list SystemState) :
  Forall (λ st, shape (f st) = sh ∧ wf_array (f st)) states →
  Forall (λ a, shape a = sh ∧ wf_array a) (map f states).
Proof. intros H. by apply Forall_fmap. Qed.

Lemma np_array_field (f : SystemState → ndarray) (sh : list nat) (states : list SystemState) :
  states ≠ [] →
  Forall (λ st, shape (f st) = sh ∧ wf_array (f st)) states →
  np_array (map f states) = NumArr (stack sh (map f states)).
Proof.
  intros Hne H. apply np_array_stack; [by destruct states |].
  apply Forall_fmap. eapply Forall_impl; [exact H |]. by intros st [Hs _].
Qed.

Lemma getitem_field (f : SystemState → ndarray) (sh : list nat) (states : list SystemState)
    (i : nat) (st : SystemState) :
  Forall (λ st, shape (f st) = sh ∧ wf_array (f st)) states →
  states !! i = Some st →
  ndarray_getitem (stack sh (map f states)) i = Ok (f st).
Proof.
  intros H Hi. apply getitem_stack; [by apply field_stack |].
  change (map f states) with (f <$> states). by rewrite list_lookup_fmap, Hi.
Qed.

Section States.

Variable h5_broadcast : list nat → ndarray → option (list float).

(** One write, and what it leaves for the writes and reads that follow. *)
Lemma save_series_step w path mode dss name ds stage i v :
  opened w path mode dss → mode ≠ "r" → dss !! name = Some ds →
  translate_int stage (length (ds_slices ds)) = Ok i →
  shape v = ds_outer ds →
  ∃ w' dss',
    save_series h5_broadcast name (NumArr v) stage w = (Ok tt, w') ∧
    opened w' path mode dss' ∧ self w' = self w ∧
    dss' !! name = Some (written ds i v) ∧
    (∀ n, n ≠ name → dss' !! n = dss !! n).
Proof.
  intros Ho Hm Hds Hi Hsh.
  exists (with_series w path name dss (written ds i v)), (<[name := written ds i v]> dss).
  split_and!.
  - by apply (save_series_ok h5_broadcast w path mode).
  - by apply opened_with_series.
  - done.
  - by rewrite lookup_insert_eq.
  - intros n Hn. by rewrite lookup_insert_ne.
Qed.

Lemma load_written w path mode dss name ds stage i v :
  opened w path mode dss → dss !! name = Some (written ds i v) →
  translate_int stage (length (ds_slices ds)) = Ok i →
  shape v = ds_outer ds →
  load_series name stage w = (Ok v, w).
Proof.
  intros Ho Hds Hi Hsh.
  pose proof (translate_int_bound _ _ _ Hi) as Hlt.
  rewrite (load_series_ok w path mode dss name (written ds i v) stage i (data v)).
  - simpl. rewrite <- Hsh. by destruct v.
  - done.
  - done.
  - simpl. by rewrite length_insert.
  - simpl. by apply list_lookup_insert_eq.
Qed.

End States.

Section StatesRoundTrip.

Variable h5_broadcast : list nat → ndarray → option (list float).

(** Round trip of the states of one stage: on an open store whose six
    series hold the stage, saving [n_replicas] well-shaped states and
    loading the stage returns the same states, in the same order. *)
Lemma save_load_states w path mode dss (r a s : nat) stage states :
  opened w path mode dss → mode ≠ "r" →
  getattr (self w) "_n_replicas" = Ok (PyInt (Z.of_nat r)) →
  holds_stage dss r a s stage →
  length states = r → states ≠ [] →
  Forall (well_shaped a s) states →
  ∃ w', save_states h5_broadcast states stage w = (Ok tt, w') ∧
        load_states stage w' = (Ok states, w').
Proof.
  intros Ho Hm Hr Hhold Hlen Hne Hws.
  destruct (Hhold "positions") as (dp & ip & Hdp & Hop & Hip); [in_quantities |].
  destruct (Hhold "velocities") as (dv & iv & Hdv & Hov & Hiv); [in_quantities |].
  destruct (Hhold "spring_states") as (dt & it & Hdt & Hot & Hit); [in_quantities |].
  destruct (Hhold "spring_energies") as (dg & ig & Hdg & Hog & Hig); [in_quantities |].
  destruct (Hhold "lambdas") as (dl & il & Hdl & Hol & Hil); [in_quantities |].
  destruct (Hhold "energies") as (de & ie & Hde & Hoe & Hie); [in_quantities |].
  change (ds_outer dp = [r; a; 3%nat]) in Hop.
  change (ds_outer dv = [r; a; 3%nat]) in Hov.
  change (ds_outer dt = [r; s]) in Hot.
  change (ds_outer dg = [r; s]) in Hog.
  change (ds_outer dl = [r]) in Hol.
  change (ds_outer de = [r]) in Hoe.
  assert (Fp : Forall (λ st, shape (positions st) = [a; 3%nat] ∧ wf_array (positions st)) states)
    by (eapply Forall_impl; [exact Hws |]; intros st Hst; apply Hst).
  assert (Fv : Forall (λ st, shape (velocities st) = [a; 3%nat] ∧ wf_array (velocities st)) states)
    by (eapply Forall_impl; [exact Hws |]; intros st Hst; apply Hst).
  assert (Ft : Forall (λ st, shape (spring_states st) = [s] ∧ wf_array (spring_states st)) states)
    by (eapply Forall_impl; [exact Hws |]; intros st Hst; apply Hst).
  assert (Fg : Forall (λ st, shape (spring_energies st) = [s] ∧ wf_array (spring_energies st))
                 states)
    by (eapply Forall_impl; [exact Hws |]; intros st Hst; apply Hst).
  assert (Fl : Forall (λ st, shape (lam st) = [] ∧ wf_array (lam st)) states)
    by (eapply Forall_impl; [exact Hws |]; intros st Hst; apply Hst).
  assert (Fe : Forall (λ st, shape (energy st) = [] ∧ wf_array (energy st)) states)
    by (eapply Forall_impl; [exact Hws |]; intros st Hst; apply Hst).
  set (P := stack [a; 3%nat] (map positions states)).
  set (V := stack [a; 3%nat] (map velocities states)).
  set (T := stack [s] (map spring_states states)).
  set (G := stack [s] (map spring_energies states)).
  set (L := stack [] (map lam states)).
  set (E := stack [] (map energy states)).
  assert (HsP : shape P = ds_outer dp) by (simpl; by rewrite length_map, Hlen, Hop).
  assert (HsV : shape V = ds_outer dv) by (simpl; by rewrite length_map, Hlen, Hov).
  assert (HsT : shape T = ds_outer dt) by (simpl; by rewrite length_map, Hlen, Hot).
  assert (HsG : shape G = ds_outer dg) by (simpl; by rewrite length_map, Hlen, Hog).
  assert (HsL : shape L = ds_outer dl) by (simpl; by rewrite length_map, Hlen, Hol).
  assert (HsE : shape E = ds_outer de) by (simpl; by rewrite length_map, Hlen, Hoe).
  (* the six writes, in the order of [save_states] *)
  destruct (save_series_step h5_broadcast w path mode dss "positions" dp stage ip P
              Ho Hm Hdp Hip HsP) as (w1 & dss1 & S1 & O1 & Q1 & W1 & R1).
  destruct (save_series_step h5_broadcast w1 path mode dss1 "velocities" dv stage iv V
              O1 Hm) as (w2 & dss2 & S2 & O2 & Q2 & W2 & R2);
    [by rewrite R1 | done | done |].
  destruct (save_series_step h5_broadcast w2 path mode dss2 "spring_states" dt stage it T
              O2 Hm) as (w3 & dss3 & S3 & O3 & Q3 & W3 & R3);
    [by rewrite R2, R1 | done | done |].
  destruct (save_series_step h5_broadcast w3 path mode dss3 "spring_energies" dg stage ig G
              O3 Hm) as (w4 & dss4 & S4 & O4 & Q4 & W4 & R4);
    [by rewrite R3, R2, R1 | done | done |].
  destruct (save_series_step h5_broadcast w4 path mode dss4 "lambdas" dl stage il L
              O4 Hm) as (w5 & dss5 & S5 & O5 & Q5 & W5 & R5);
    [by rewrite R4, R3, R2, R1 | done | done |].
  destruct (save_series_step h5_broadcast w5 path mode dss5 "energies" de stage ie E
              O5 Hm) as (w6 & dss6 & S6 & O6 & Q6 & W6 & R6);
    [by rewrite R5, R4, R3, R2, R1 | done | done |].
  exists w6. split.
  - unfold save_states.
    rewrite (np_array_field positions _ _ Hne Fp), (np_array_field velocities _ _ Hne Fv),
      (np_array_field spring_states _ _ Hne Ft), (np_array_field spring_energies _ _ Hne Fg),
      (np_array_field lam _ _ Hne Fl), (np_array_field energy _ _ Hne Fe).
    cbv zeta. unfold save_positions, save_velocities, save_spring_states,
      save_spring_energies, save_lambdas, save_energies.
    rewrite (bind_ok _ _ w _ w1 S1), (bind_ok _ _ w1 _ w2 S2), (bind_ok _ _ w2 _ w3 S3),
      (bind_ok _ _ w3 _ w4 S4), (bind_ok _ _ w4 _ w5 S5).
    exact S6.
  - unfold load_states, load_positions, load_velocities, load_spring_states,
      load_spring_energies, load_lambdas, load_energies.
    rewrite (bind_ok _ _ w6 P w6);
      [| apply (load_written w6 path mode dss6 _ dp stage ip); [done | | done | done];
         by rewrite R6, R5, R4, R3, R2].
    rewrite (bind_ok _ _ w6 V w6);
      [| apply (load_written w6 path mode dss6 _ dv stage iv); [done | | done | done];
         by rewrite R6, R5, R4, R3].
    rewrite (bind_ok _ _ w6 T w6);
      [| apply (load_written w6 path mode dss6 _ dt stage it); [done | | done | done];
         by rewrite R6, R5, R4].
    rewrite (bind_ok _ _ w6 G w6);
      [| apply (load_written w6 path mode dss6 _ dg stage ig); [done | | done | done];
         by rewrite R6, R5].
    rewrite (bind_ok _ _ w6 L w6);
      [| apply (load_written w6 path mode dss6 _ dl stage il); [done | | done | done];
         by rewrite R6].
    rewrite (bind_ok _ _ w6 E w6);
      [| by apply (load_written w6 path mode dss6 _ de stage ie)].
    rewrite (bind_ok _ _ w6 (PyInt (Z.of_nat r)) w6);
      [| apply self_attr_ok; by rewrite Q6, Q5, Q4, Q3, Q2, Q1].
    simpl. unfold lift_outcome at 1. unfold bind at 1.
    rewrite Nat2Z.id, <- Hlen.
    apply map_M_seq. intros i st Hi. simpl.
    unfold lift_outcome, bind. subst P V T G L E.
    rewrite (getitem_field positions _ _ _ _ Fp Hi), (getitem_field velocities _ _ _ _ Fv Hi),
      (getitem_field spring_states _ _ _ _ Ft Hi), (getitem_field lam _ _ _ _ Fl Hi),
      (getitem_field energy _ _ _ _ Fe Hi), (getitem_field spring_energies _ _ _ _ Fg Hi).
    by destruct st.
Qed.

End StatesRoundTrip.

(** The round trip at work: one state, saved at stage 0 of a new store
    and loaded again. *)
Example save_load_states_at_stage_0 :
  ∃ w', save_states (λ _ _, None) [unit_state] 0 fresh_world = (Ok tt, w') ∧
        load_states 0 w' = (Ok [unit_state], w').
Proof.
  apply (save_load_states _ fresh_world h5_path "w-" fresh_series 1 1 1).
  - by split.
  - done.
  - reflexivity.
  - intros name Hn. pattern name. revert name Hn. unfold quantities.
    intros name. rewrite !elem_of_cons, elem_of_nil.
    intros [->|[->|[->|[->|[->|[->|[]]]]]]]; vm_compute; eauto.
  - reflexivity.
  - done.
  - apply Forall_cons. split; [| by apply Forall_nil]. by vm_compute.
Qed.

(** ** Backup *)

Lemma backup_source_cases (P : string → Prop) :
  P communicator_path → P data_store_path → P remd_runner_path → P h5_path →
  ∀ p, p ∈ backup_sources → P p.
Proof.
  intros H1 H2 H3 H4 p. unfold backup_sources.
  rewrite !elem_of_cons, elem_of_nil.
  intros [->|[->|[->|[->|[]]]]]; done.
Qed.

(** No backup copy is written over a source, over another file's copy, or
    over the backup directory. *)
Lemma backup_path_facts (p : string) :
  p ∈ backup_sources →
  os_path_dirname (_make_backup_path p) = backup_dir ∧
  _make_backup_path p ≠ backup_dir ∧
  (∀ q, q ∈ backup_sources → q ≠ _make_backup_path p) ∧
  (∀ q, q ∈ backup_sources → q ≠ p → _make_backup_path q ≠ _make_backup_path p).
Proof.
  intros Hp. pattern p. revert p Hp.
  apply backup_source_cases; (split_and!; [reflexivity | by vm_compute | |]);
    intros q Hq; pattern q; revert q Hq; apply backup_source_cases; by vm_compute.
Qed.

Lemma backed_up_other (disk : gmap string node) (p q : string) :
  q ≠ _make_backup_path p → backed_up disk p !! q = disk !! q.
Proof.
  intros Hq. unfold backed_up. destruct (disk !! p); [| done].
  by rewrite lookup_insert_ne.
Qed.

Lemma backed_up_copy (disk : gmap string node) (p : string) (n : node) :
  disk !! p = Some n → backed_up disk p !! _make_backup_path p = Some n.
Proof. intros H. unfold backed_up. rewrite H. by rewrite lookup_insert_eq. Qed.

Lemma backed_up_no_new_dir (disk : gmap string node) (p q : string) :
  disk !! p ≠ Some Dir → disk !! q ≠ Some Dir → backed_up disk p !! q ≠ Some Dir.
Proof.
  intros Hp Hq. unfold backed_up. destruct (disk !! p) as [n|] eqn:Hn; [| done].
  destruct (decide (q = _make_backup_path p)) as [->|Hne].
  - rewrite lookup_insert_eq. congruence.
  - by rewrite lookup_insert_ne.
Qed.

Lemma run_layout_backed_up (disk : gmap string node) (p : string) :
  p ∈ backup_sources → run_layout disk → run_layout (backed_up disk p).
Proof.
  intros Hp [Hdir Hall].
  destruct (backup_path_facts p Hp) as (_ & Hbd & _ & _).
  split.
  - rewrite backed_up_other by done. exact Hdir.
  - intros q Hq. destruct (Hall p Hp) as [Hp1 _]. destruct (Hall q Hq) as [Hq1 Hq2].
    split; by apply backed_up_no_new_dir.
Qed.

(** [_backup] of one of the four files never fails on a laid-out run
    directory: a present file is copied, an absent one is skipped. *)
Lemma _backup_ok (w : world) (p : string) :
  p ∈ backup_sources → run_layout (fs w) →
  _backup p w = (Ok tt, World (self w) (backed_up (fs w) p)).
Proof.
  intros Hp [Hdir Hall]. destruct (Hall p Hp) as [Hsrc Hdst].
  destruct (backup_path_facts p Hp) as (Hdn & _ & Hne & _).
  specialize (Hne p Hp).
  unfold _backup, backed_up, bind at 1, os_path_exists.
  destruct (fs w !! p) as [n|] eqn:Hn.
  - rewrite bool_decide_eq_true_2 by eauto.
    destruct n as [|c]; [done |].
    unfold shutil_copy, bind at 1, os_path_isdir.
    assert (Hnd : match fs w !! _make_backup_path p with Some Dir => true | _ => false end
                  = false) by (by destruct (fs w !! _make_backup_path p) as [[|]|]).
    rewrite Hnd. rewrite bool_decide_eq_false_2 by done.
    unfold bind at 1, open_r. rewrite Hn.
    rewrite (bind_ok _ _ w tt (World (self w) (<[_make_backup_path p := File Raw]> (fs w)))).
    + unfold write_file, set_fs, modify. simpl. by rewrite insert_insert_eq.
    + by apply (open_w_ok w _ backup_dir).
  - rewrite bool_decide_eq_false_2; [by destruct w |].
    by intros [? ?].
Qed.

Lemma py_mod_ok (a freq : Z) : freq ≠ 0 → py_mod a (PyInt freq) = Ok (a mod freq).
Proof. intros H. by destruct freq. Qed.

Lemma backup_image_other (disk : gmap string node) (q : string) :
  (∀ p, p ∈ backup_sources → q ≠ _make_backup_path p) →
  backup_image disk !! q = disk !! q.
Proof.
  intros Hq. unfold backup_image. simpl.
  rewrite !backed_up_other; [done | apply Hq; unfold backup_sources ..];
    repeat (apply elem_of_cons; first [by left | right]).
Qed.

Lemma backup_image_source (disk : gmap string node) (q : string) :
  q ∈ backup_sources → backup_image disk !! q = disk !! q.
Proof.
  intros Hq. apply backup_image_other. intros p Hp.
  by apply (backup_path_facts p Hp).
Qed.

(** In the image, the place of [p] in [Backup/] holds what [p] held; if
    [p] was absent, its place is as it was. *)
Lemma backup_image_copy (disk : gmap string node) (p : string) :
  p ∈ backup_sources →
  backup_image disk !! _make_backup_path p =
    match disk !! p with
    | Some n => Some n
    | None => disk !! _make_backup_path p
    end.
Proof.
  intros Hp. unfold backup_image. simpl.
  assert (Hsrc : ∀ d q, q ∈ backup_sources → backed_up d q !! p = d !! p).
  { intros d q Hq. apply backed_up_other. by apply (backup_path_facts q Hq). }
  assert (Hstep : ∀ d, backed_up d p !! _make_backup_path p =
                       match d !! p with Some n => Some n | None => d !! _make_backup_path p end).
  { intros d. destruct (d !! p) as [n|] eqn:Hn; [by apply backed_up_copy |].
    unfold backed_up. by rewrite Hn. }
  assert (Hoth : ∀ d q, q ∈ backup_sources → q ≠ p →
                        backed_up d q !! _make_backup_path p = d !! _make_backup_path p).
  { intros d q Hq Hne. apply backed_up_other.
    destruct (backup_path_facts q Hq) as (_ & _ & _ & H). intros Heq.
    by apply (H p Hp (not_eq_sym Hne)). }
  revert Hsrc Hstep Hoth. pattern p. revert p Hp.
  apply backup_source_cases; intros Hsrc Hstep Hoth.
  - rewrite !Hoth by (first [in_sources | by vm_compute]). apply Hstep.
  - rewrite !Hoth by (first [in_sources | by vm_compute]).
    rewrite Hstep, Hsrc by in_sources.
    destruct (disk !! data_store_path); [done |].
    by rewrite Hoth by (first [in_sources | by vm_compute]).
  - rewrite !Hoth by (first [in_sources | by vm_compute]).
    rewrite Hstep, !Hsrc by in_sources.
    destruct (disk !! remd_runner_path); [done |].
    by rewrite !Hoth by (first [in_sources | by vm_compute]).
  - rewrite Hstep, !Hsrc by in_sources.
    destruct (disk !! h5_path); [done |].
    by rewrite !Hoth by (first [in_sources | by vm_compute]).
Qed.

(** A due backup on a ready store: the four copies are made, the handle
    is closed and a new one is opened in append mode. *)
Lemma backup_due (w : world) (stage freq : Z) (dss : gmap string dataset) :
  backup_ready w freq dss → stage mod freq = 0 →
  backup stage w =
    (Ok tt, World (setattr (self w) "_h5_file" (PyH5File h5_path "a")) (backup_image (fs w))).
Proof.
  intros (Hfreq & Hnz & (path & mode & Hh) & Hc & Hlay) Hdue.
  unfold backup.
  rewrite (bind_ok _ _ w _ w (self_attr_ok _ _ _ Hfreq)).
  unfold lift_outcome at 1. unfold bind at 1.
  rewrite (py_mod_ok _ _ Hnz), Hdue. simpl.
  set (d1 := backed_up (fs w) communicator_path).
  set (d2 := backed_up d1 data_store_path).
  set (d3 := backed_up d2 remd_runner_path).
  set (d4 := backed_up d3 h5_path).
  assert (L1 : run_layout d1) by (apply run_layout_backed_up; [in_sources | done]).
  assert (L2 : run_layout d2) by (apply run_layout_backed_up; [in_sources | done]).
  assert (L3 : run_layout d3) by (apply run_layout_backed_up; [in_sources | done]).
  rewrite (bind_ok _ _ w tt (World (self w) d1)) by (apply _backup_ok; [in_sources | done]).
  rewrite (bind_ok _ _ (World (self w) d1) tt (World (self w) d2))
    by (apply (_backup_ok (World (self w) d1)); [in_sources | done]).
  rewrite (bind_ok _ _ (World (self w) d2) tt (World (self w) d3))
    by (apply (_backup_ok (World (self w) d2)); [in_sources | done]).
  rewrite (bind_ok _ _ (World (self w) d3) _ (World (self w) d3)
             (self_attr_ok (World (self w) d3) _ _ Hh)).
  rewrite (bind_ok _ _ (World (self w) d3) tt (World (self w) d3)) by done.
  rewrite (bind_ok _ _ (World (self w) d3) tt (World (self w) d4))
    by (apply (_backup_ok (World (self w) d3)); [in_sources | done]).
  rewrite (bind_ok _ _ (World (self w) d4) (PyH5File h5_path "a") (World (self w) d4)).
  - reflexivity.
  - apply (h5py_File_append_existing _ dss). simpl.
    change d4 with (backup_image (fs w)).
    rewrite backup_image_source by in_sources. exact Hc.
Qed.

Lemma backup_not_due (w : world) (stage freq : Z) (dss : gmap string dataset) :
  backup_ready w freq dss → stage mod freq ≠ 0 → backup stage w = (Ok tt, w).
Proof.
  intros (Hfreq & Hnz & _) Hdue.
  unfold backup.
  rewrite (bind_ok _ _ w _ w (self_attr_ok _ _ _ Hfreq)).
  unfold lift_outcome at 1. unfold bind at 1.
  rewrite (py_mod_ok _ _ Hnz). simpl.
  destruct (Z.eqb_spec (stage mod freq) 0); done.
Qed.

(** C7: on a store ready for backup, [backup(stage)] copies if and only
    if [stage mod backup_freq = 0].  When due it returns normally and, of
    the three sidecar files and the container, each one present is found
    in [Backup/] under its own name afterwards, each one absent is passed
    over without error (its place in [Backup/] stays as it was), and no
    other path changes.  When not due it returns normally and changes
    neither the disk nor the store. *)
Theorem backup_copies_iff_due (w : world) (stage freq : Z) (dss : gmap string dataset) :
  backup_ready w freq dss →
  (stage mod freq = 0 →
     ∃ w', backup stage w = (Ok tt, w') ∧
           (∀ p, p ∈ backup_sources →
              fs w' !! _make_backup_path p =
                match fs w !! p with
                | Some n => Some n
                | None => fs w !! _make_backup_path p
                end) ∧
           (∀ q, (∀ p, p ∈ backup_sources → q ≠ _make_backup_path p) →
              fs w' !! q = fs w !! q)) ∧
  (stage mod freq ≠ 0 → backup stage w = (Ok tt, w)).
Proof.
  intros Hready. split.
  - intros Hdue. eexists. split; [by apply (backup_due w stage freq dss) |]. split.
    + intros p Hp. simpl. by apply backup_image_copy.
    + intros q Hq. simpl. by apply backup_image_other.
  - by apply (backup_not_due w stage freq dss).
Qed.

Lemma sources_listed :
  communicator_path ∈ backup_sources ∧ data_store_path ∈ backup_sources ∧
  remd_runner_path ∈ backup_sources ∧ h5_path ∈ backup_sources.
Proof. split_and!; in_sources. Qed.

Lemma running_world_ready : backup_ready running_world 100 fresh_series.
Proof.
  split_and!.
  - reflexivity.
  - done.
  - by exists h5_path, "w-".
  - reflexivity.
  - split; [reflexivity |].
    intros p Hp. pattern p. revert p Hp. apply backup_source_cases; by vm_compute.
Defined.

Lemma backup_copies_iff_due_witness :
  backup_ready running_world 100 fresh_series ∧
  (∃ w', backup 0 running_world = (Ok tt, w') ∧
         fs w' !! "Data/Backup/results.h5" = fs running_world !! "Data/results.h5" ∧
         fs w' !! "Data/Backup/data_store.dat" = fs running_world !! "Data/data_store.dat" ∧
         fs w' !! "Data/Backup/remd_runner.dat" = None) ∧
  (∃ w', backup 100 running_world = (Ok tt, w') ∧
         fs w' !! "Data/Backup/results.h5" = fs running_world !! "Data/results.h5") ∧
  backup 1 running_world = (Ok tt, running_world).
Proof.
  pose proof (backup_copies_iff_due running_world 0 100 fresh_series running_world_ready) as [H0 _].
  pose proof (backup_copies_iff_due running_world 100 100 fresh_series running_world_ready)
    as [H100 _].
  pose proof (backup_copies_iff_due running_world 1 100 fresh_series running_world_ready) as [_ H1].
  split; [exact running_world_ready |]. split_and!.
  - destruct (H0 eq_refl) as (w' & Hb & Hcopy & _). exists w'. split; [exact Hb |].
    split_and!.
    + pose proof (Hcopy h5_path ltac:(apply sources_listed)) as H.
      change (_make_backup_path h5_path) with "Data/Backup/results.h5" in H.
      rewrite H. vm_compute. reflexivity.
    + pose proof (Hcopy data_store_path ltac:(apply sources_listed)) as H.
      change (_make_backup_path data_store_path) with "Data/Backup/data_store.dat" in H.
      rewrite H. vm_compute. reflexivity.
    + pose proof (Hcopy remd_runner_path ltac:(apply sources_listed)) as H.
      change (_make_backup_path remd_runner_path) with "Data/Backup/remd_runner.dat" in H.
      rewrite H. vm_compute. reflexivity.
  - destruct (H100 eq_refl) as (w' & Hb & Hcopy & _). exists w'. split; [exact Hb |].
    pose proof (Hcopy h5_path ltac:(apply sources_listed)) as H.
    change (_make_backup_path h5_path) with "Data/Backup/results.h5" in H.
    rewrite H. vm_compute. reflexivity.
  - apply H1. vm_compute. discriminate.
Defined.

Section AfterBackup.

Variable h5_broadcast : list nat → ndarray → option (list float).


End AfterBackup.


(** * Further properties of the store *)

(** ** Creating a store *)

Lemma bind_raise {S A B} (c : M S A) (k : A → M S B) s e s' :
  c s = (Raise e, s') → bind c k s = (Raise e, s').
Proof. intros H. unfold bind. by rewrite H. Qed.

Lemma getattr_setattr_ne (obj : pyobj) (name name' : string) (v : pyval) :
  name ≠ name' → getattr (setattr obj name v) name' = getattr obj name'.
Proof. intros H. unfold getattr, setattr. simpl. by rewrite lookup_insert_ne. Qed.

Lemma dims_of_nat (ds : list nat) :
  dims_of (((λ d, PyInt (Z.of_nat d)) <$> ds) ++ [PyInt 1]) = Ok (ds ++ [1%nat]).
Proof.
  induction ds as [|d ds IH]; [done |].
  unfold dims_of in *. rewrite fmap_cons. cbn [app foldr]. rewrite IH.
  destruct (Z.leb_spec 0 (Z.of_nat d)); [| lia]. by rewrite Nat2Z.id.
Qed.

Lemma maxdims_of_nat (ds : list nat) :
  maxdims_of (((λ d, PyInt (Z.of_nat d)) <$> ds) ++ [PyNone]) = Ok ((Some <$> ds) ++ [None]).
Proof.
  induction ds as [|d ds IH]; [done |].
  unfold maxdims_of in *. rewrite !fmap_cons. cbn [app foldr]. rewrite IH.
  destruct (Z.leb_spec 0 (Z.of_nat d)); [| lia]. by rewrite Nat2Z.id.
Qed.

Lemma all_fit_unbounded (ds : list nat) :
  all_fit (ds ++ [1%nat]) ((Some <$> ds) ++ [None]) = true.
Proof.
  induction ds as [|d ds IH]; [done |].
  rewrite fmap_cons. cbn [app all_fit fits]. rewrite IH.
  by rewrite bool_decide_eq_true_2.
Qed.

(** Creating a series that is not there yet, with one stage and no bound
    on the stage axis. *)
Lemma h5_create_dataset_new (w : world) (path mode name : string)
    (dss : gmap string dataset) (outer : list nat) (shp maxshp : M world (list pyval)) :
  fs w !! path = Some (File (H5 dss)) → mode ≠ "r" → dss !! name = None →
  shp w = (Ok (((λ d, PyInt (Z.of_nat d)) <$> outer) ++ [PyInt 1]), w) →
  maxshp w = (Ok (((λ d, PyInt (Z.of_nat d)) <$> outer) ++ [PyNone]), w) →
  h5_create_dataset (PyH5File path mode) name shp maxshp w =
    (Ok tt, with_series w path name dss (new_series outer)).
Proof.
  intros Hf Hm Hn Hs Hx. unfold h5_create_dataset.
  rewrite (bind_ok _ _ w _ w Hs), (bind_ok _ _ w _ w Hx).
  unfold lift_outcome at 1. unfold bind at 1.
  rewrite dims_of_nat.
  unfold lift_outcome at 1. unfold bind at 1. rewrite maxdims_of_nat.
  rewrite all_fit_unbounded. simpl.
  rewrite reverse_snoc, reverse_involutive.
  rewrite (bind_ok _ _ w _ w (h5_datasets_ok _ _ _ Hf)).
  rewrite bool_decide_eq_false_2 by done. by rewrite Hn.
Qed.

Lemma with_series_again (w : world) path name name' dss ds ds' :
  with_series (with_series w path name dss ds) path name' (<[name := ds]> dss) ds' =
  World (self w) (<[path := File (H5 (<[name' := ds']> (<[name := ds]> dss)))]> (fs w)).
Proof. unfold with_series. simpl. by rewrite insert_insert_eq. Qed.

(** [_setup_h5_datasets] on a store that has just created its container. *)
Lemma _setup_h5_datasets_ok (w : world) (mode : string) (r a s : nat) :
  configured (self w) r a s →
  getattr (self w) "_h5_file" = Ok (PyH5File h5_path mode) → mode ≠ "r" →
  fs w !! h5_path = Some (File (H5 ∅)) →
  _setup_h5_datasets w =
    (Ok tt, World (self w) (<[h5_path := File (H5 (new_container r a s))]> (fs w))).
Proof.
  intros (Hr & Ha & Hs) Hh Hm Hf.
  assert (Hstep : ∀ (dss : gmap string dataset) name outer shp maxshp,
    dss !! name = None →
    let w1 := World (self w) (<[h5_path := File (H5 dss)]> (fs w)) in
    shp w1 = (Ok (((λ d, PyInt (Z.of_nat d)) <$> outer) ++ [PyInt 1]), w1) →
    maxshp w1 = (Ok (((λ d, PyInt (Z.of_nat d)) <$> outer) ++ [PyNone]), w1) →
    bind (self_attr "_h5_file") (λ f, h5_create_dataset f name shp maxshp) w1 =
      (Ok tt, World (self w) (<[h5_path := File (H5 (<[name := new_series outer]> dss))]> (fs w)))).
  { intros dss name outer shp maxshp Hn w1 H1 H2.
    rewrite (bind_ok _ _ w1 _ w1 (self_attr_ok w1 _ _ Hh)).
    rewrite (h5_create_dataset_new w1 h5_path mode name dss outer); try done.
    - unfold with_series, w1. simpl. by rewrite insert_insert_eq.
    - unfold w1. simpl. by rewrite lookup_insert_eq. }
  assert (Hattr : ∀ d name v, getattr (self w) name = Ok v →
            self_attr name (World (self w) d) = (Ok v, World (self w) d)).
  { intros d name v H. by apply (self_attr_ok (World (self w) d)). }
  assert (Hw : w = World (self w) (<[h5_path := File (H5 ∅)]> (fs w))).
  { rewrite insert_id by done. by destruct w. }
  rewrite Hw at 1.
  unfold _setup_h5_datasets, _setup_positions, _setup_velocities, _setup_spring_states,
    _setup_spring_energies, _setup_lambdas, _setup_energies.
  erewrite bind_ok;
    [| apply (Hstep ∅ "positions" [r; a; 3%nat]); [done | |];
       by rewrite (bind_ok _ _ _ _ _ (Hattr _ _ _ Hr)), (bind_ok _ _ _ _ _ (Hattr _ _ _ Ha))].
  erewrite bind_ok;
    [| apply (Hstep _ "velocities" [r; a; 3%nat]); [done | |];
       by rewrite (bind_ok _ _ _ _ _ (Hattr _ _ _ Hr)), (bind_ok _ _ _ _ _ (Hattr _ _ _ Ha))].
  erewrite bind_ok;
    [| apply (Hstep _ "spring_states" [r; s]); [done | |];
       by rewrite (bind_ok _ _ _ _ _ (Hattr _ _ _ Hr)), (bind_ok _ _ _ _ _ (Hattr _ _ _ Hs))].
  erewrite bind_ok;
    [| apply (Hstep _ "spring_energies" [r; s]); [done | |];
       by rewrite (bind_ok _ _ _ _ _ (Hattr _ _ _ Hr)), (bind_ok _ _ _ _ _ (Hattr _ _ _ Hs))].
  erewrite bind_ok;
    [| apply (Hstep _ "lambdas" [r]); [done | |];
       by rewrite (bind_ok _ _ _ _ _ (Hattr _ _ _ Hr))].
  apply (Hstep _ "energies" [r]); [done | |];
    by rewrite (bind_ok _ _ _ _ _ (Hattr _ _ _ Hr)).
Qed.
Lemma configured_setattr (store : pyobj) (r a s : nat) (v : pyval) :
  configured store r a s → configured (setattr store "_h5_file" v) r a s.
Proof. intros (Hr & Ha & Hs). unfold configured. by rewrite !getattr_setattr_ne. Qed.

Lemma new_container_series (r a s : nat) (name : string) :
  name ∈ quantities →
  new_container r a s !! name = Some (new_series (outer_dims r a s name)).
Proof.
  unfold quantities. rewrite !elem_of_cons, elem_of_nil.
  intros [->|[->|[->|[->|[->|[->|[]]]]]]]; reflexivity.
Qed.

(** [initialize('new')] where there is no [Data] yet. *)
Lemma initialize_new_ok (w : world) (r a s : nat) :
  configured (self w) r a s →
  fs w !! data_dir = None → fs w !! backup_dir = None → fs w !! h5_path = None →
  initialize "new" w =
    (Ok tt, World (setattr (self w) "_h5_file" (PyH5File h5_path "w-"))
              (new_disk r a s (fs w))).
Proof.
  intros Hc Hd Hb Hf. unfold initialize. simpl.
  unfold bind at 1, os_path_exists. rewrite Hd.
  rewrite bool_decide_eq_false_2 by (by intros [? ?]).
  set (d1 := <[data_dir := Dir]> (fs w)).
  set (d2 := <[backup_dir := Dir]> d1).
  set (d3 := <[h5_path := File (H5 ∅)]> d2).
  rewrite (bind_ok _ _ w tt (World (self w) d1)) by (unfold os_mkdir; by rewrite Hd).
  rewrite (bind_ok _ _ (World (self w) d1) tt (World (self w) d2)).
  2:{ unfold os_mkdir, d1. simpl. rewrite lookup_insert_ne by done. rewrite Hb.
      rewrite (parent_exists_in_dir _ _ "Data"); [done | done | done |].
      by rewrite lookup_insert_eq. }
  rewrite (bind_ok _ _ (World (self w) d2) (PyH5File h5_path "w-") (World (self w) d3)).
  2:{ unfold h5py_File, d2, d1. simpl. rewrite !lookup_insert_ne by done. rewrite Hf.
      rewrite (parent_exists_in_dir _ _ "Data"); [done | done | done |].
      rewrite lookup_insert_ne by done. by rewrite lookup_insert_eq. }
  rewrite (bind_ok _ _ (World (self w) d3) tt
             (World (setattr (self w) "_h5_file" (PyH5File h5_path "w-")) d3)) by done.
  rewrite (_setup_h5_datasets_ok _ "w-" r a s).
  - simpl. unfold new_disk, d3. by rewrite insert_insert_eq.
  - simpl. by apply configured_setattr.
  - simpl. apply getattr_setattr.
  - done.
  - simpl. unfold d3. by rewrite lookup_insert_eq.
Qed.

(** X1: in a run directory without [Data], [initialize('new')] succeeds.
    It creates [Data] and [Data/Backup], creates the container with the
    six series in the dimensions of the store, each holding one stage of
    zeros, keeps a live handle on it, and touches no other path. *)
Theorem initialize_new_creates (w : world) (r a s : nat) :
  configured (self w) r a s →
  fs w !! data_dir = None → fs w !! backup_dir = None → fs w !! h5_path = None →
  ∃ w', initialize "new" w = (Ok tt, w') ∧
        fs w' !! data_dir = Some Dir ∧ fs w' !! backup_dir = Some Dir ∧
        opened w' h5_path "w-" (new_container r a s) ∧
        (∀ name, name ∈ quantities →
           new_container r a s !! name =
             Some (Dataset (outer_dims r a s name)
                     ((Some <$> outer_dims r a s name) ++ [None])
                     [replicate (nelems (outer_dims r a s name)) PrimFloat.zero])) ∧
        configured (self w') r a s ∧
        (∀ q, q ≠ data_dir → q ≠ backup_dir → q ≠ h5_path → fs w' !! q = fs w !! q).
Proof.
  intros Hc Hd Hb Hf. eexists. split; [by apply (initialize_new_ok w r a s) |].
  simpl. unfold new_disk. split_and!.
  - rewrite !lookup_insert_ne by done. by rewrite lookup_insert_eq.
  - rewrite lookup_insert_ne by done. by rewrite lookup_insert_eq.
  - split; [apply getattr_setattr |]. simpl. by rewrite lookup_insert_eq.
  - intros name Hn. by rewrite new_container_series.
  - by apply configured_setattr.
  - intros q H1 H2 H3. by rewrite !lookup_insert_ne.
Qed.

Lemma initialize_new_creates_witness :
  let w := World (__init__ 500 100 4 100) ∅ in
  configured (self w) 4 500 100 ∧
  ∃ w', initialize "new" w = (Ok tt, w') ∧
        fs w' !! data_dir = Some Dir ∧ fs w' !! backup_dir = Some Dir ∧
        opened w' h5_path "w-" (new_container 4 500 100).
Proof.
  intros w.
  assert (H : configured (self w) 4 500 100) by (by split_and!).
  split; [exact H |].
  destruct (initialize_new_creates w 4 500 100 H eq_refl eq_refl eq_refl)
    as (w' & H1 & H2 & H3 & H4 & _).
  exists w'. by split_and!.
Defined.

(** X2: a second [initialize('new')] right after a successful one raises
    the directory-exists error and leaves what the first one created. *)
Theorem initialize_new_twice (w : world) (r a s : nat) :
  configured (self w) r a s →
  fs w !! data_dir = None → fs w !! backup_dir = None → fs w !! h5_path = None →
  ∃ w', initialize "new" w = (Ok tt, w') ∧
        initialize "new" w' = (Raise (RuntimeError "Data directory already exists"), w').
Proof.
  intros Hc Hd Hb Hf. eexists. split; [by apply (initialize_new_ok w r a s) |].
  unfold initialize. simpl. unfold bind, os_path_exists. simpl.
  rewrite bool_decide_eq_true_2; [done |].
  unfold new_disk. rewrite !lookup_insert_ne by done. rewrite lookup_insert_eq. eauto.
Qed.

Lemma initialize_new_twice_witness :
  let w := World (__init__ 500 100 4 100) ∅ in
  configured (self w) 4 500 100 ∧
  ∃ w', initialize "new" w = (Ok tt, w') ∧
        initialize "new" w' = (Raise (RuntimeError "Data directory already exists"), w').
Proof.
  intros w.
  assert (H : configured (self w) 4 500 100) by (by split_and!).
  split; [exact H |].
  exact (initialize_new_twice w 4 500 100 H eq_refl eq_refl eq_refl).
Defined.

(** ** Modes and missing containers *)

(** X3: a mode other than ['new'] and ['existing'] is refused with the
    unknown-mode error naming it, before anything is touched. *)
Theorem initialize_unknown_mode (mode : string) (w : world) :
  mode ≠ "new" → mode ≠ "existing" →
  initialize mode w = (Raise (RuntimeError ("Unknown value for mode=" +:+ mode)), w).
Proof.
  intros H1 H2. unfold initialize.
  by rewrite !bool_decide_eq_false_2.
Qed.

Lemma initialize_unknown_mode_witness :
  "r" ≠ "new" ∧ "r" ≠ "existing" ∧
  initialize "r" (World live_store bare_disk) =
    (Raise (RuntimeError "Unknown value for mode=r"), World live_store bare_disk).
Proof.
  assert (H1 : "r" ≠ "new") by discriminate.
  assert (H2 : "r" ≠ "existing") by discriminate.
  split_and!; [exact H1 | exact H2 |].
  exact (initialize_unknown_mode "r" (World live_store bare_disk) H1 H2).
Defined.

Lemma load_series_missing (w : world) (path mode name : string) (dss : gmap string dataset)
    (stage : Z) :
  opened w path mode dss → dss !! name = None →
  load_series name stage w = (Raise (KeyError name), w).
Proof.
  intros [Hh Hf] Hn. unfold load_series.
  rewrite (bind_ok _ _ w _ w (self_attr_ok _ _ _ Hh)).
  unfold h5_getitem, bind at 1.
  rewrite (bind_ok _ _ w _ w (h5_datasets_ok _ _ _ Hf)). by rewrite Hn.
Qed.

(** X4: [initialize('existing')] where [Data] exists but holds no
    container does not fail: it creates an empty container and keeps a
    handle on it, and it is the first load that raises, with a key error.
    Where there is no [Data] directory either it raises an I/O error and
    changes nothing. *)
Theorem initialize_existing_without_container (w : world) :
  fs w !! h5_path = None →
  (fs w !! data_dir = Some Dir →
     ∃ w', initialize "existing" w = (Ok tt, w') ∧
           opened w' h5_path "a" ∅ ∧
           ∀ name stage, load_series name stage w' = (Raise (KeyError name), w')) ∧
  (fs w !! data_dir ≠ Some Dir →
     initialize "existing" w = (Raise (IOError h5_path), w)).
Proof.
  intros Hf. split.
  - intros Hd.
    exists (World (setattr (self w) "_h5_file" (PyH5File h5_path "a"))
              (<[h5_path := File (H5 ∅)]> (fs w))).
    assert (Ho : opened (World (setattr (self w) "_h5_file" (PyH5File h5_path "a"))
                           (<[h5_path := File (H5 ∅)]> (fs w))) h5_path "a" ∅).
    { split; [apply getattr_setattr |]. simpl. by rewrite lookup_insert_eq. }
    split_and!.
    + unfold initialize. simpl. unfold bind, h5py_File. simpl. rewrite Hf.
      by rewrite (parent_exists_in_dir _ _ "Data").
    + exact Ho.
    + intros name stage. by apply (load_series_missing _ h5_path "a" _ ∅).
  - intros Hd. unfold initialize. simpl. unfold bind, h5py_File. simpl. rewrite Hf.
    unfold parent_exists.
    change (os_path_dirname h5_path) with "Data". simpl.
    change "Data" with data_dir.
    by destruct (fs w !! data_dir) as [[|c]|].
Qed.

Lemma initialize_existing_without_container_witness :
  let w := World (__init__ 500 100 4 100) bare_disk in
  let w0 := World (__init__ 500 100 4 100) ∅ in
  (∃ w', initialize "existing" w = (Ok tt, w') ∧
         load_series "positions" 0 w' = (Raise (KeyError "positions"), w')) ∧
  initialize "existing" w0 = (Raise (IOError h5_path), w0).
Proof.
  intros w w0.
  destruct (initialize_existing_without_container w eq_refl) as [H _].
  destruct (initialize_existing_without_container w0 eq_refl) as [_ H0].
  split.
  - destruct (H eq_refl) as (w' & Hi & _ & Hl). exists w'. split; [exact Hi | apply Hl].
  - apply H0. discriminate.
Defined.

(** ** A store without a handle *)

Section NoHandle.

Variable h5_broadcast : list nat → ndarray → option (list float).

Lemma load_series_no_handle (w : world) (name : string) (stage : Z) :
  getattr (self w) "_h5_file" = Ok PyNone →
  load_series name stage w = (Raise (TypeError "NoneType"), w).
Proof.
  intros Hh. unfold load_series.
  by rewrite (bind_ok _ _ w _ w (self_attr_ok _ _ _ Hh)).
Qed.

Lemma save_series_no_handle (w : world) (name : string) (value : nparr) (stage : Z) :
  getattr (self w) "_h5_file" = Ok PyNone →
  save_series h5_broadcast name value stage w = (Raise (TypeError "NoneType"), w).
Proof.
  intros Hh. unfold save_series.
  by rewrite (bind_ok _ _ w _ w (self_attr_ok _ _ _ Hh)).
Qed.

(** X5: on a store whose handle is unset (never initialised, closed, or
    just reloaded from its pickle) every load and every save, of one
    quantity or of all states, raises a type error on the unset handle and
    changes neither the store nor the disk. *)
Theorem store_without_handle_unusable (w : world) :
  getattr (self w) "_h5_file" = Ok PyNone →
  (∀ name stage, load_series name stage w = (Raise (TypeError "NoneType"), w)) ∧
  (∀ name value stage,
     save_series h5_broadcast name value stage w = (Raise (TypeError "NoneType"), w)) ∧
  (∀ stage, load_states stage w = (Raise (TypeError "NoneType"), w)) ∧
  (∀ states stage,
     save_states h5_broadcast states stage w = (Raise (TypeError "NoneType"), w)).
Proof.
  intros Hh. split_and!.
  - intros. by apply load_series_no_handle.
  - intros. by apply save_series_no_handle.
  - intros stage. unfold load_states, load_positions.
    by rewrite (bind_raise _ _ w _ w (load_series_no_handle w _ _ Hh)).
  - intros states stage. unfold save_states, save_positions.
    by rewrite (bind_raise _ _ w _ w (save_series_no_handle w _ _ _ Hh)).
Qed.

End NoHandle.

Lemma store_without_handle_unusable_witness :
  let w := World (__init__ 500 100 4 100) bare_disk in
  getattr (self w) "_h5_file" = Ok PyNone ∧
  load_states 0 w = (Raise (TypeError "NoneType"), w) ∧
  save_states (λ _ _, None) [unit_state] 0 w = (Raise (TypeError "NoneType"), w).
Proof.
  intros w.
  assert (H : getattr (self w) "_h5_file" = Ok PyNone) by reflexivity.
  destruct (store_without_handle_unusable (λ _ _, None) w H) as (_ & _ & Hl & Hs).
  split_and!; [exact H | apply Hl | apply Hs].
Defined.

(** ** Closing *)

(** X6: [close()] on a store whose handle is live or already unset
    returns normally, leaves the handle unset and the disk as it was; a
    second [close()] does nothing, and the closed store can neither load
    nor save. *)
Theorem close_releases_handle (w : world) (f : pyval) :
  getattr (self w) "_h5_file" = Ok f →
  (f = PyNone ∨ ∃ path mode, f = PyH5File path mode) →
  ∃ w', close w = (Ok tt, w') ∧
        fs w' = fs w ∧
        getattr (self w') "_h5_file" = Ok PyNone ∧
        (∀ name, name ≠ "_h5_file" → getattr (self w') name = getattr (self w) name) ∧
        close w' = (Ok tt, w') ∧
        ∀ name stage, load_series name stage w' = (Raise (TypeError "NoneType"), w').
Proof.
  intros Hh Hf.
  assert (Hclosed : ∀ w0, getattr (self w0) "_h5_file" = Ok PyNone → close w0 = (Ok tt, w0)).
  { intros w0 H0. unfold close. by rewrite (bind_ok _ _ w0 _ w0 (self_attr_ok _ _ _ H0)). }
  destruct Hf as [->|(path & mode & ->)].
  - exists w. split_and!; try done.
    + by apply Hclosed.
    + by apply Hclosed.
    + intros. by apply load_series_no_handle.
  - exists (World (setattr (self w) "_h5_file" PyNone) (fs w)).
    assert (Hn : getattr (setattr (self w) "_h5_file" PyNone) "_h5_file" = Ok PyNone)
      by apply getattr_setattr.
    split_and!; try done.
    + unfold close. by rewrite (bind_ok _ _ w _ w (self_attr_ok _ _ _ Hh)).
    + intros name Hne. simpl. by apply getattr_setattr_ne.
    + by apply Hclosed.
    + intros. by apply load_series_no_handle.
Qed.

Lemma close_releases_handle_witness :
  ∃ w', close fresh_world = (Ok tt, w') ∧
        fs w' = fs fresh_world ∧
        getattr (self w') "_h5_file" = Ok PyNone ∧
        close w' = (Ok tt, w').
Proof.
  destruct (close_releases_handle fresh_world (PyH5File h5_path "w-") eq_refl)
    as (w' & H1 & H2 & H3 & _ & H5 & _).
  - right. by exists h5_path, "w-".
  - exists w'. by split_and!.
Defined.

(** ** Loads never write *)

Lemma read_only_ret {S A} (a : A) : read_only (ret a : M S A).
Proof. by intros s. Qed.

Lemma read_only_raise {S A} (e : exn) : read_only (raise e : M S A).
Proof. by intros s. Qed.

Lemma read_only_lift {S A} (o : outcome A) : read_only (lift_outcome o : M S A).
Proof. by intros s. Qed.

Lemma read_only_bind {S A B} (c : M S A) (k : A → M S B) :
  read_only c → (∀ a, read_only (k a)) → read_only (bind c k).
Proof.
  intros Hc Hk s. unfold bind. specialize (Hc s).
  destruct (c s) as [[a|e] s']; simpl in *; subst s'; [apply Hk | done].
Qed.

Lemma read_only_map_M {S A B} (f : A → M S B) (xs : list A) :
  (∀ x, read_only (f x)) → read_only (map_M f xs).
Proof.
  intros Hf. induction xs as [|x xs IH]; [apply read_only_ret |].
  simpl. apply read_only_bind; [apply Hf |]. intros y.
  apply read_only_bind; [exact IH |]. intros ys. apply read_only_ret.
Qed.

Lemma read_only_self_attr (name : string) : read_only (self_attr name).
Proof. by intros w. Qed.

Lemma read_only_h5_datasets (path : string) : read_only (h5_datasets path).
Proof. intros w. unfold h5_datasets. by destruct (fs w !! path) as [[|[| |]]|]. Qed.

Lemma read_only_load_series (name : string) (stage : Z) : read_only (load_series name stage).
Proof.
  unfold load_series.
  apply read_only_bind; [apply read_only_self_attr |]. intros f.
  apply read_only_bind.
  - unfold h5_getitem. destruct f; try apply read_only_raise.
    apply read_only_bind; [apply read_only_h5_datasets |]. intros dss.
    destruct (dss !! name); [apply read_only_ret | apply read_only_raise].
  - intros r. unfold dataset_getitem.
    apply read_only_bind.
    + unfold deref. apply read_only_bind; [apply read_only_h5_datasets |]. intros dss.
      destruct (dss !! dr_name r); [apply read_only_ret | apply read_only_raise].
    + intros ds. apply read_only_bind; [apply read_only_lift |]. intros i.
      destruct (ds_slices ds !! i); [apply read_only_ret | apply read_only_raise].
Qed.

Lemma read_only_load_states (stage : Z) : read_only (load_states stage).
Proof.
  unfold load_states.
  repeat (apply read_only_bind; [apply read_only_load_series | intros ?]).
  apply read_only_bind; [apply read_only_self_attr |]. intros n.
  apply read_only_bind; [apply read_only_lift |]. intros idx.
  apply read_only_map_M. intros i.
  repeat (apply read_only_bind; [apply read_only_lift | intros ?]).
  apply read_only_ret.
Qed.

(** X7: loading never writes.  Whatever [load_Q(stage)] and
    [load_states(stage)] return or raise, for whatever store and disk,
    they leave both exactly as they were. *)
Theorem loads_change_nothing (stage : Z) (w : world) :
  (∀ name, (load_series name stage w).2 = w) ∧
  (load_positions stage w).2 = w ∧ (load_velocities stage w).2 = w ∧
  (load_spring_states stage w).2 = w ∧ (load_spring_energies stage w).2 = w ∧
  (load_lambdas stage w).2 = w ∧ (load_energies stage w).2 = w ∧
  (load_states stage w).2 = w.
Proof.
  split_and!; try (intros; apply read_only_load_series).
  apply read_only_load_states.
Qed.

Lemma map_M_length {St A B} (f : A → M St B) (xs : list A) (s s' : St) (ys : list B) :
  map_M f xs s = (Ok ys, s') → length ys = length xs.
Proof.
  revert s s' ys. induction xs as [|x xs IH]; intros s s' ys; simpl.
  - by intros [= <- _].
  - unfold bind at 1. destruct (f x s) as [[y|e] s1]; [| done].
    unfold bind at 1. destruct (map_M f xs s1) as [[ys'|e] s2] eqn:Hm; [| done].
    intros [= <- _]. simpl. f_equal. by eapply IH.
Qed.

Lemma bind_ok_inv {S A B} (c : M S A) (k : A → M S B) s b s' :
  bind c k s = (Ok b, s') → ∃ a s1, c s = (Ok a, s1) ∧ k a s1 = (Ok b, s').
Proof.
  unfold bind. destruct (c s) as [[a|e] s1]; [| done]. intros H. by exists a, s1.
Qed.

Lemma read_only_ok {St A} (c : M St A) (Hc : read_only c) (s s' : St) (a : A) :
  c s = (Ok a, s') → s' = s.
Proof. intros H. specialize (Hc s). rewrite H in Hc. exact Hc. Qed.

(** X8: when [load_states] returns, it returns exactly [n_replicas]
    states. *)
Theorem load_states_length (stage : Z) (w w' : world) (states : list SystemState) :
  load_states stage w = (Ok states, w') →
  ∃ n, getattr (self w) "_n_replicas" = Ok (PyInt n) ∧ length states = Z.to_nat n.
Proof.
  unfold load_states. intros H.
  do 6 (apply bind_ok_inv in H as (? & ? & Hl & H);
        apply (read_only_ok _ (read_only_load_series _ _)) in Hl as ->).
  apply bind_ok_inv in H as (n & w1 & Hn & H).
  unfold self_attr in Hn. destruct (getattr (self w) "_n_replicas") as [v|] eqn:Hv; [| done].
  injection Hn as -> ->.
  apply bind_ok_inv in H as (idx & w2 & Hi & H).
  unfold lift_outcome, range in Hi. destruct n as [|z| | |]; try done.
  injection Hi as <- <-.
  exists z. split; [done |].
  apply map_M_length in H. by rewrite H, length_seq.
Qed.

Lemma load_states_length_witness :
  ∃ w', load_states 0 fresh_world = (Ok (replicate 1 (state_SystemState
          (NdArray [1; 3]%nat (replicate 3 PrimFloat.zero))
          (NdArray [1; 3]%nat (replicate 3 PrimFloat.zero))
          (NdArray [1%nat] [PrimFloat.zero])
          (NdArray [] [PrimFloat.zero]) (NdArray [] [PrimFloat.zero])
          (NdArray [1%nat] [PrimFloat.zero]))), w') ∧
  ∃ n, getattr (self fresh_world) "_n_replicas" = Ok (PyInt n) ∧
       1%nat = Z.to_nat n.
Proof.
  exists fresh_world.
  assert (H : load_states 0 fresh_world = (Ok (replicate 1 (state_SystemState
          (NdArray [1; 3]%nat (replicate 3 PrimFloat.zero))
          (NdArray [1; 3]%nat (replicate 3 PrimFloat.zero))
          (NdArray [1%nat] [PrimFloat.zero])
          (NdArray [] [PrimFloat.zero]) (NdArray [] [PrimFloat.zero])
          (NdArray [1%nat] [PrimFloat.zero]))), fresh_world)) by (vm_compute; reflexivity).
  split; [exact H |].
  destruct (load_states_length 0 fresh_world fresh_world _ H) as (n & Hn & Hl).
  exists n. split; [exact Hn |]. simpl in *. exact Hl.
Defined.

(** ** What a write leaves alone *)

Lemma load_series_read_slice (w : world) (path mode name : string)
    (dss : gmap string dataset) (stage : Z) :
  opened w path mode dss →
  load_series name stage w = (read_slice dss name stage, w).
Proof.
  intros [Hh Hf]. unfold load_series, read_slice.
  rewrite (bind_ok _ _ w _ w (self_attr_ok _ _ _ Hh)).
  unfold h5_getitem, bind at 1.
  rewrite (bind_ok _ _ w _ w (h5_datasets_ok _ _ _ Hf)).
  destruct (dss !! name) as [ds|] eqn:Hds; [| done].
  unfold ret at 1. unfold dataset_getitem.
  rewrite (bind_ok _ _ w _ w (deref_ok _ _ _ _ _ _ Hf Hds)).
  unfold lift_outcome, bind.
  destruct (translate_int stage (length (ds_slices ds))) as [i|e]; [| done].
  by destruct (ds_slices ds !! i).
Qed.

Section Frame.

Variable h5_broadcast : list nat → ndarray → option (list float).

(** X9: a successful [save_Q(v, stage)] changes one slice only.  Every
    other series, and every other stage of the same series, reads after
    the write as it read before. *)
Theorem save_leaves_other_slices (w : world) (path mode name : string)
    (dss : gmap string dataset) (ds : dataset) (stage : Z) (i : nat) (v : ndarray) :
  opened w path mode dss → mode ≠ "r" → dss !! name = Some ds →
  translate_int stage (length (ds_slices ds)) = Ok i →
  shape v = ds_outer ds →
  ∃ w', save_series h5_broadcast name (NumArr v) stage w = (Ok tt, w') ∧
        ∀ name' stage',
          (name' ≠ name ∨ translate_int stage' (length (ds_slices ds)) ≠ Ok i) →
          (load_series name' stage' w').1 = (load_series name' stage' w).1.
Proof.
  intros Ho Hm Hds Hi Hsh.
  exists (with_series w path name dss (written ds i v)). split.
  - by apply (save_series_ok h5_broadcast w path mode).
  - intros name' stage' Hother.
    rewrite (load_series_read_slice _ path mode name' (<[name := written ds i v]> dss))
      by by apply opened_with_series.
    rewrite (load_series_read_slice w path mode name' dss) by done.
    simpl. unfold read_slice.
    destruct (decide (name' = name)) as [->|Hne].
    + destruct Hother as [? | Hj]; [done |].
      rewrite lookup_insert_eq, Hds. simpl. rewrite length_insert.
      destruct (translate_int stage' (length (ds_slices ds))) as [j|e]; [| done].
      rewrite list_lookup_insert_ne; [done |]. congruence.
    + by rewrite lookup_insert_ne.
Qed.

End Frame.

Lemma save_leaves_other_slices_witness :
  let v := NdArray [1%nat] [PrimFloat.one] in
  ∃ w', save_lambdas (λ _ _, None) (NumArr v) 0 fresh_world = (Ok tt, w') ∧
        (load_energies 0 w').1 = (load_energies 0 fresh_world).1.
Proof.
  intros v.
  assert (Hl : ∃ ds, fresh_series !! "lambdas" = Some ds ∧ ds_outer ds = [1%nat] ∧
                     translate_int 0 (length (ds_slices ds)) = Ok 0%nat)
    by (vm_compute; eauto).
  destruct Hl as (ds & Hds & Hout & Hi).
  destruct (save_leaves_other_slices (λ _ _, None) fresh_world h5_path "w-" "lambdas"
              fresh_series ds 0 0%nat v) as (w' & Hs & Hframe).
  - exact fresh_world_opened.
  - discriminate.
  - exact Hds.
  - exact Hi.
  - by rewrite Hout.
  - exists w'. split; [exact Hs |]. apply Hframe. left. discriminate.
Defined.

(** ** Saving the store, closing, and coming back *)

Lemma save_data_store_ok (w : world) :
  cls (self w) = ClsDataStore →
  (∀ k x, attrs (self w) !! k = Some x → k ≠ "_h5_file" → picklable x = true) →
  fs w !! data_dir = Some Dir → fs w !! data_store_path ≠ Some Dir →
  save_data_store w =
    (Ok tt, World (self w)
              (<[data_store_path := File (Pickled ClsDataStore (getstate_of (self w)))]>
                 (fs w))).
Proof.
  intros Hc Hp Hd Hf. unfold save_data_store.
  rewrite (bind_ok _ _ w tt (World (self w) (<[data_store_path := File Raw]> (fs w))))
    by (apply (open_w_ok w _ "Data"); done).
  unfold bind at 1, get.
  rewrite pickle_dump_ok.
  - simpl. by rewrite Hc, insert_insert_eq.
  - by apply (getstate_of_picklable _ "_h5_file"); [left |].
Qed.

Lemma load_data_store_ok (w : world) (k : pyclass) (state : gmap string pyval) :
  fs w !! data_store_path = Some (File (Pickled k state)) →
  load_data_store w = (Ok (setstate_of k state), w).
Proof.
  intros H. unfold load_data_store.
  rewrite (bind_ok _ _ w (Pickled k state) w); [done |].
  unfold open_r. by rewrite H.
Qed.

Section Reload.

Variable h5_broadcast : list nat → ndarray → option (list float).

(** X10: what was saved is still there after the store is pickled,
    closed, loaded from its pickle and opened again in ['existing'] mode
    (the sequence every test of the container goes through): the reloaded
    store reads back the value written at that stage. *)
Theorem saved_slice_survives_reload (w : world) (mode name : string)
    (dss : gmap string dataset) (ds : dataset) (stage : Z) (i : nat) (v : ndarray) :
  opened w h5_path mode dss → mode ≠ "r" → dss !! name = Some ds →
  translate_int stage (length (ds_slices ds)) = Ok i →
  shape v = ds_outer ds →
  cls (self w) = ClsDataStore →
  (∀ k x, attrs (self w) !! k = Some x → k ≠ "_h5_file" → picklable x = true) →
  fs w !! data_dir = Some Dir → fs w !! data_store_path ≠ Some Dir →
  ∃ w1 w2 w3 store2 w4,
    save_series h5_broadcast name (NumArr v) stage w = (Ok tt, w1) ∧
    save_data_store w1 = (Ok tt, w2) ∧
    close w2 = (Ok tt, w3) ∧
    load_data_store w3 = (Ok store2, w3) ∧
    initialize "existing" (World store2 (fs w3)) = (Ok tt, w4) ∧
    load_series name stage w4 = (Ok v, w4).
Proof.
  intros Ho Hm Hds Hi Hsh Hc Hp Hd Hf.
  pose proof Ho as [Hh Hfs].
  set (dss' := <[name := written ds i v]> dss).
  set (d1 := <[h5_path := File (H5 dss')]> (fs w)).
  set (d2 := <[data_store_path := File (Pickled ClsDataStore (getstate_of (self w)))]> d1).
  set (store2 := __setstate__ (getstate_of (self w))).
  exists (World (self w) d1), (World (self w) d2),
    (World (setattr (self w) "_h5_file" PyNone) d2), store2,
    (World (setattr store2 "_h5_file" (PyH5File h5_path "a")) d2).
  assert (Hc2 : d2 !! h5_path = Some (File (H5 dss'))).
  { unfold d2, d1. rewrite lookup_insert_ne by done. by rewrite lookup_insert_eq. }
  split_and!.
  - by apply (save_series_ok h5_broadcast w h5_path mode).
  - apply (save_data_store_ok (World (self w) d1)); simpl; try done.
    + unfold d1. by rewrite lookup_insert_ne.
    + unfold d1. by rewrite lookup_insert_ne.
  - unfold close.
    rewrite (bind_ok _ _ _ _ _ (self_attr_ok (World (self w) d2) _ _ Hh)). done.
  - rewrite (load_data_store_ok _ ClsDataStore (getstate_of (self w))); [done |].
    simpl. unfold d2. by rewrite lookup_insert_eq.
  - unfold initialize. simpl.
    by rewrite (bind_ok _ _ _ _ _
                  (h5py_File_append_existing (World store2 d2) dss' h5_path Hc2)).
  - apply (load_written _ h5_path "a" dss' name ds stage i v); try done.
    + split; [apply getattr_setattr | exact Hc2].
    + unfold dss'. by rewrite lookup_insert_eq.
Qed.

End Reload.

Lemma saved_slice_survives_reload_witness :
  let v := NdArray [1; 1; 3]%nat [PrimFloat.one; PrimFloat.one; PrimFloat.one] in
  ∃ w1 w2 w3 store2 w4,
    save_positions (λ _ _, None) (NumArr v) 0 fresh_world = (Ok tt, w1) ∧
    save_data_store w1 = (Ok tt, w2) ∧
    close w2 = (Ok tt, w3) ∧
    load_data_store w3 = (Ok store2, w3) ∧
    initialize "existing" (World store2 (fs w3)) = (Ok tt, w4) ∧
    load_positions 0 w4 = (Ok v, w4).
Proof.
  intros v.
  assert (Hl : ∃ ds, fresh_series !! "positions" = Some ds ∧ ds_outer ds = [1; 1; 3]%nat ∧
                     translate_int 0 (length (ds_slices ds)) = Ok 0%nat)
    by (vm_compute; eauto).
  destruct Hl as (ds & Hds & Hout & Hi).
  apply (saved_slice_survives_reload (λ _ _, None) fresh_world "w-" "positions"
           fresh_series ds 0 0%nat v).
  - exact fresh_world_opened.
  - discriminate.
  - exact Hds.
  - exact Hi.
  - by rewrite Hout.
  - reflexivity.
  - intros k x Hkx Hk.
    change (self fresh_world) with (setattr small_store "_h5_file" (PyH5File h5_path "w-"))
      in Hkx.
    simpl in Hkx. each_attr Hkx; reflexivity.
  - reflexivity.
  - vm_compute. discriminate.
Defined.

(** ** Backups that cannot complete *)

(** X12: with a backup frequency of zero, [backup] raises a division
    error for every stage, before anything is copied. *)
Theorem backup_frequency_zero (w : world) (stage : Z) :
  getattr (self w) "_backup_freq" = Ok (PyInt 0) →
  backup stage w = (Raise ZeroDivisionError, w).
Proof.
  intros H. unfold backup.
  by rewrite (bind_ok _ _ w _ w (self_attr_ok _ _ _ H)).
Qed.

Lemma backup_frequency_zero_witness :
  let w := World (__init__ 500 100 4 0) bare_disk in
  getattr (self w) "_backup_freq" = Ok (PyInt 0) ∧
  backup 7 w = (Raise ZeroDivisionError, w).
Proof.
  intros w.
  assert (H : getattr (self w) "_backup_freq" = Ok (PyInt 0)) by reflexivity.
  split; [exact H | exact (backup_frequency_zero w 7 H)].
Defined.

Lemma sidecar_is_source (p : string) : p ∈ sidecars → p ∈ backup_sources.
Proof.
  unfold sidecars, backup_sources. rewrite !elem_of_cons, !elem_of_nil. tauto.
Qed.

Lemma sidecar_is_listed : data_store_path ∈ sidecars.
Proof. unfold sidecars. apply elem_of_cons. right. apply elem_of_cons. by left. Qed.

(** X13: a due [backup] on a store whose handle is unset is not all or
    nothing: the three sidecar files are copied first, then closing the
    unset handle raises an attribute error, so the container is not
    copied and the handle stays unset. *)
Theorem backup_without_handle (w : world) (stage freq : Z) :
  getattr (self w) "_backup_freq" = Ok (PyInt freq) → freq ≠ 0 →
  getattr (self w) "_h5_file" = Ok PyNone →
  run_layout (fs w) →
  stage mod freq = 0 →
  ∃ w', backup stage w = (Raise (AttributeError "NoneType" "close"), w') ∧
        self w' = self w ∧
        (∀ p, p ∈ sidecars →
           fs w' !! _make_backup_path p =
             match fs w !! p with
             | Some n => Some n
             | None => fs w !! _make_backup_path p
             end) ∧
        fs w' !! _make_backup_path h5_path = fs w !! _make_backup_path h5_path.
Proof.
  intros Hfreq Hnz Hh Hlay Hdue.
  set (d1 := backed_up (fs w) communicator_path).
  set (d2 := backed_up d1 data_store_path).
  set (d3 := backed_up d2 remd_runner_path).
  exists (World (self w) d3).
  assert (L1 : run_layout d1) by (apply run_layout_backed_up; [in_sources | done]).
  assert (L2 : run_layout d2) by (apply run_layout_backed_up; [in_sources | done]).
  assert (Hsrc : ∀ d q p, q ∈ backup_sources → p ∈ backup_sources →
                          backed_up d q !! p = d !! p).
  { intros d q p Hq Hp. apply backed_up_other. by apply (backup_path_facts q Hq). }
  assert (Hoth : ∀ d q p, q ∈ backup_sources → p ∈ backup_sources → q ≠ p →
                          backed_up d q !! _make_backup_path p = d !! _make_backup_path p).
  { intros d q p Hq Hp Hne. apply backed_up_other.
    destruct (backup_path_facts q Hq) as (_ & _ & _ & H). intros Heq.
    by apply (H p Hp (not_eq_sym Hne)). }
  assert (Hstep : ∀ d p, backed_up d p !! _make_backup_path p =
                         match d !! p with Some n => Some n | None => d !! _make_backup_path p end).
  { intros d p. destruct (d !! p) as [n|] eqn:Hn; [by apply backed_up_copy |].
    unfold backed_up. by rewrite Hn. }
  split_and!.
  - unfold backup.
    rewrite (bind_ok _ _ w _ w (self_attr_ok _ _ _ Hfreq)).
    unfold lift_outcome at 1. unfold bind at 1.
    rewrite (py_mod_ok _ _ Hnz), Hdue. simpl.
    rewrite (bind_ok _ _ w tt (World (self w) d1)) by (apply _backup_ok; [in_sources | done]).
    rewrite (bind_ok _ _ (World (self w) d1) tt (World (self w) d2))
      by (apply (_backup_ok (World (self w) d1)); [in_sources | done]).
    rewrite (bind_ok _ _ (World (self w) d2) tt (World (self w) d3))
      by (apply (_backup_ok (World (self w) d2)); [in_sources | done]).
    by rewrite (bind_ok _ _ (World (self w) d3) _ (World (self w) d3)
                  (self_attr_ok (World (self w) d3) _ _ Hh)).
  - done.
  - intros p. unfold sidecars. rewrite !elem_of_cons, elem_of_nil.
    intros [->|[->|[->|[]]]]; simpl; unfold d3, d2, d1.
    + rewrite !Hoth by (first [in_sources | by vm_compute]). apply Hstep.
    + rewrite !Hoth by (first [in_sources | by vm_compute]).
      rewrite Hstep, Hsrc by in_sources.
      destruct (fs w !! data_store_path); [done |].
      by rewrite Hoth by (first [in_sources | by vm_compute]).
    + rewrite Hstep, !Hsrc by in_sources.
      destruct (fs w !! remd_runner_path); [done |].
      by rewrite !Hoth by (first [in_sources | by vm_compute]).
  - simpl. unfold d3, d2, d1.
    by rewrite !Hoth by (first [in_sources | by vm_compute]).
Qed.

Lemma backup_without_handle_witness :
  let w := World (__init__ 1 1 1 100) (fs running_world) in
  ∃ w', backup 100 w = (Raise (AttributeError "NoneType" "close"), w') ∧
        fs w' !! "Data/Backup/data_store.dat" = fs w !! "Data/data_store.dat" ∧
        fs w' !! "Data/Backup/results.h5" = None.
Proof.
  intros w.
  destruct (backup_without_handle w 100 100) as (w' & Hb & _ & Hs & Hc).
  - reflexivity.
  - discriminate.
  - reflexivity.
  - exact (proj2 (proj2 (proj2 (proj2 running_world_ready)))).
  - reflexivity.
  - exists w'. split; [exact Hb |]. split.
    + pose proof (Hs data_store_path ltac:(apply sidecar_is_listed)) as H.
      change (_make_backup_path data_store_path) with "Data/Backup/data_store.dat" in H.
      rewrite H. vm_compute. reflexivity.
    + change (_make_backup_path h5_path) with "Data/Backup/results.h5" in Hc.
      rewrite Hc. vm_compute. reflexivity.
Defined.

(** ** Backing up again *)





(** * Further properties of the channel *)

Section InitializedChannel.

Variable mpi : Type.
Variable payload : Type.
Variable Get_rank : M mpi Z.
Variable scatter gather bcast : option payload → Z → M mpi payload.
Variable np_array_of : payload → payload.

Abbreviation cstate := (MPICommunicator.cstate mpi).
Abbreviation CState := (MPICommunicator.CState mpi).


End InitializedChannel.


Lemma save_communicator_ok (comm : pyobj) (w : world) :
  cls comm = ClsMPICommunicator →
  (∀ k x, attrs comm !! k = Some x → k ≠ "_mpi_comm" → picklable x = true) →
  fs w !! data_dir = Some Dir → fs w !! communicator_path ≠ Some Dir →
  save_communicator comm w =
    (Ok tt, World (self w)
              (<[communicator_path := File (Pickled ClsMPICommunicator (getstate_of comm))]>
                 (fs w))).
Proof.
  intros Hc Hp Hd Hf. unfold save_communicator.
  rewrite (bind_ok _ _ w tt (World (self w) (<[communicator_path := File Raw]> (fs w))))
    by (apply (open_w_ok w _ "Data"); done).
  rewrite pickle_dump_ok.
  - simpl. by rewrite Hc, insert_insert_eq.
  - by apply (getstate_of_picklable _ "_mpi_comm"); [right |].
Qed.

Section ReloadedChannel.

Variable mpi : Type.
Variable payload : Type.
Variable Get_rank : M mpi Z.
Variable scatter gather bcast : option payload → Z → M mpi payload.

(** X16: a channel pickled after [initialize()] comes back without its
    handle but with its rank: the reloaded channel still answers [rank]
    and [is_master] from the saved value, while its transfers fail on the
    unset handle. *)
Theorem reloaded_channel_keeps_rank (comm : pyobj) (r : Z) (w : world) :
  cls comm = ClsMPICommunicator →
  getattr comm "_my_rank" = Ok (PyInt r) →
  (∀ k x, attrs comm !! k = Some x → k ≠ "_mpi_comm" → picklable x = true) →
  fs w !! data_dir = Some Dir → fs w !! communicator_path ≠ Some Dir →
  ∃ w' comm2,
    save_communicator comm w = (Ok tt, w') ∧
    load_communicator w' = (Ok comm2, w') ∧
    ∀ (g : mpi) (x : payload),
      let s := MPICommunicator.CState mpi comm2 g in
      MPICommunicator.rank mpi s = (Ok (PyInt r), s) ∧
      MPICommunicator.is_master mpi s = (Ok (bool_decide (r = 0)), s) ∧
      MPICommunicator.gather_states_from_slaves mpi payload gather x s
        = (Raise (AttributeError "NoneType" "gather"), s) ∧
      MPICommunicator.broadcast_states_to_slaves mpi payload scatter x s
        = (Raise (AttributeError "NoneType" "scatter"), s) ∧
      MPICommunicator.broadcast_states_for_energy_calc_to_slaves mpi payload bcast x s
        = (Raise (AttributeError "NoneType" "bcast"), s).
Proof.
  intros Hc Hr Hp Hd Hf.
  set (comm2 := MPICommunicator.__setstate__ (getstate_of comm)).
  exists (World (self w)
            (<[communicator_path := File (Pickled ClsMPICommunicator (getstate_of comm))]>
               (fs w))), comm2.
  assert (Hrank : getattr comm2 "_my_rank" = Ok (PyInt r)).
  { unfold comm2, MPICommunicator.__setstate__. rewrite getattr_setattr_ne by done.
    unfold getattr in *. simpl. unfold getstate_of. rewrite Hc.
    unfold MPICommunicator.__getstate__.
    destruct (attrs comm !! "_my_rank") as [v|] eqn:Hv; [| done].
    injection Hr as ->.
    assert (Hl : filter (λ kv : string * pyval, ¬ kv.1 = "_mpi_comm") (attrs comm)
                   !! "_my_rank" = Some (PyInt r))
      by (by apply map_lookup_filter_Some).
    by rewrite Hl. }
  assert (Hcomm : getattr comm2 "_mpi_comm" = Ok PyNone) by apply getattr_setattr.
  split_and!.
  - by apply save_communicator_ok.
  - unfold load_communicator, bind, open_r. simpl. by rewrite lookup_insert_eq.
  - intros g x s. split_and!.
    + unfold MPICommunicator.rank, MPICommunicator.self_attr. simpl. by rewrite Hrank.
    + unfold MPICommunicator.is_master, bind, MPICommunicator.self_attr. simpl.
      rewrite Hrank. by destruct r.
    + unfold MPICommunicator.gather_states_from_slaves, bind, MPICommunicator.self_attr.
      simpl. by rewrite Hcomm.
    + unfold MPICommunicator.broadcast_states_to_slaves, bind, MPICommunicator.self_attr.
      simpl. by rewrite Hcomm.
    + unfold MPICommunicator.broadcast_states_for_energy_calc_to_slaves, bind,
        MPICommunicator.self_attr. simpl. by rewrite Hcomm.
Qed.

End ReloadedChannel.

Lemma reloaded_channel_keeps_rank_witness :
  let collective : option unit → Z → M Z unit := λ _ _ g, (Ok tt, g) in
  ∃ w' comm2,
    save_communicator live_comm fresh_world = (Ok tt, w') ∧
    load_communicator w' = (Ok comm2, w') ∧
    MPICommunicator.rank Z (MPICommunicator.CState Z comm2 0)
      = (Ok (PyInt 0), MPICommunicator.CState Z comm2 0) ∧
    MPICommunicator.gather_states_from_slaves Z unit collective tt
      (MPICommunicator.CState Z comm2 0)
      = (Raise (AttributeError "NoneType" "gather"), MPICommunicator.CState Z comm2 0).
Proof.
  intros collective.
  destruct (reloaded_channel_keeps_rank Z unit collective collective collective
              live_comm 0 fresh_world) as (w' & comm2 & Hs & Hl & Huse).
  - reflexivity.
  - reflexivity.
  - intros k v Hkv Hk. simpl in Hkv. each_attr Hkv; reflexivity.
  - reflexivity.
  - vm_compute. discriminate.
  - exists w', comm2. destruct (Huse 0 tt) as (H1 & _ & H3 & _).
    split_and!; [exact Hs | exact Hl | exact H1 | exact H3].
Defined.

(** * Backup paths *)

Lemma append_cons (x : ascii) (a b : string) : String x a +:+ b = String x (a +:+ b).
Proof. reflexivity. Qed.

Lemma append_assoc (a b c : string) : (a +:+ b) +:+ c = a +:+ (b +:+ c).
Proof. induction a as [|x a IH]; [done |]. by rewrite !append_cons, IH. Qed.

Lemma append_empty_r (a : string) : a +:+ "" = a.
Proof. induction a as [|x a IH]; [done |]. by rewrite append_cons, IH. Qed.

Lemma split_scan_app (a b head cur : string) :
  split_scan (a +:+ b) head cur =
    split_scan b (split_scan a head cur).1 (split_scan a head cur).2.
Proof.
  revert head cur. induction a as [|x a IH]; intros head cur; [done |].
  rewrite append_cons. simpl. destruct (Ascii.eqb x slash); apply IH.
Qed.

Lemma split_scan_name (name head cur : string) :
  no_slash name = true → split_scan name head cur = (head, cur +:+ name).
Proof.
  revert cur. induction name as [|x name IH]; intros cur Hn; simpl in *.
  - by rewrite append_empty_r.
  - apply andb_prop in Hn as [Hx Hn]. apply negb_true_iff in Hx. rewrite Hx.
    rewrite IH by done. f_equal. apply append_assoc.
Qed.

Lemma split_scan_after_slash (d head cur : string) :
  ends_with_slash d = true → (split_scan d head cur).2 = "".
Proof.
  revert head cur. induction d as [|x d IH]; intros head cur Hd; [done |].
  simpl in *. destruct d as [|y d].
  - by rewrite Hd.
  - destruct (Ascii.eqb x slash); by apply IH.
Qed.

Lemma split_name (d name : string) :
  no_slash name = true → (os_path_split (os_path_join d name)).2 = name.
Proof.
  intros Hn.
  assert (Htail : ∀ p, (os_path_split p).2 = (split_scan p "" "").2).
  { intros p. unfold os_path_split. by destruct (split_scan p "" ""). }
  rewrite Htail. unfold os_path_join.
  assert (Hs : starts_with_slash name = false).
  { destruct name as [|x name]; [done |]. simpl in *.
    apply andb_prop in Hn as [Hx _]. by apply negb_true_iff in Hx. }
  rewrite Hs.
  destruct (String.eqb d "" || ends_with_slash d) eqn:Hd.
  - rewrite split_scan_app, split_scan_name by done. simpl.
    apply orb_prop in Hd as [Hd|Hd].
    + apply String.eqb_eq in Hd as ->. done.
    + by rewrite split_scan_after_slash.
  - rewrite split_scan_app, split_scan_app. simpl.
    rewrite split_scan_name by done. done.
Qed.

(** X17: [_make_backup_path] keeps the file name and nothing else: for
    every directory [d], the backup place of [d/name] is
    [Data/Backup/name].  Files of the same name in different directories
    therefore share one backup place. *)
Theorem backup_path_keeps_name_only (d d' name : string) :
  no_slash name = true →
  _make_backup_path (os_path_join d name) = "Data/Backup/" +:+ name ∧
  _make_backup_path (os_path_join d name) = _make_backup_path (os_path_join d' name).
Proof.
  intros Hn.
  assert (H : ∀ d0, _make_backup_path (os_path_join d0 name) = "Data/Backup/" +:+ name).
  { intros d0. unfold _make_backup_path.
    pose proof (split_name d0 name Hn) as Ht.
    destruct (os_path_split (os_path_join d0 name)) as [base tail]. simpl in Ht. subst tail.
    unfold os_path_join.
    assert (Hs : starts_with_slash name = false).
    { destruct name as [|x name]; [done |]. simpl in *.
      apply andb_prop in Hn as [Hx _]. by apply negb_true_iff in Hx. }
    by rewrite Hs. }
  split; [apply H |]. by rewrite !H.
Qed.

Lemma backup_path_keeps_name_only_witness :
  no_slash "results.h5" = true ∧
  _make_backup_path (os_path_join "Data" "results.h5") = "Data/Backup/results.h5" ∧
  _make_backup_path (os_path_join "Data" "results.h5")
    = _make_backup_path (os_path_join "Elsewhere/Deep" "results.h5").
Proof.
  assert (H : no_slash "results.h5" = true) by reflexivity.
  split; [exact H |].
  exact (backup_path_keeps_name_only "Data" "Elsewhere/Deep" "results.h5" H).
Defined.

(** * What no sequence of calls changes *)

Lemma preserves_ret {St A} (P : St → Prop) (a : A) : preserves P (ret a : M St A).
Proof. by intros s. Qed.

Lemma preserves_raise {St A} (P : St → Prop) (e : exn) : preserves P (raise e : M St A).
Proof. by intros s. Qed.

Lemma preserves_read_only {St A} (P : St → Prop) (c : M St A) :
  read_only c → preserves P c.
Proof. intros H s Hs. by rewrite H. Qed.





Section Steady.

Variable h5_broadcast : list nat → ndarray → option (list float).
Variable L : gmap string (list nat * list (option nat) * nat).







End Steady.


(** * A store larger than its container *)

Lemma map_M_raises {St B} (f : nat → M St B) (s : St) (e : exn) (n k j : nat) :
  (k < n)%nat →
  (∀ i, (i < k)%nat → ∃ y, f (j + i)%nat s = (Ok y, s)) →
  f (j + k)%nat s = (Raise e, s) →
  map_M f (seq j n) s = (Raise e, s).
Proof.
  revert k j. induction n as [|n IH]; intros k j Hk Hok Hraise; [lia |].
  simpl. destruct k as [|k].
  - rewrite Nat.add_0_r in Hraise. by rewrite (bind_raise _ _ s e s Hraise).
  - destruct (Hok 0%nat ltac:(lia)) as [y Hy]. rewrite Nat.add_0_r in Hy.
    rewrite (bind_ok _ _ s y s Hy).
    rewrite (bind_raise _ _ s e s); [done |].
    apply (IH k (S j)); [lia | |].
    + intros i Hi. destruct (Hok (S i) ltac:(lia)) as [z Hz].
      exists z. by replace (S j + i)%nat with (j + S i)%nat by lia.
    + by replace (S j + k)%nat with (j + S k)%nat by lia.
Qed.

Lemma read_slice_held (dss : gmap string dataset) (r a s : nat) (stage : Z) (name : string) :
  holds_stage dss r a s stage → name ∈ quantities →
  ∃ sl, read_slice dss name stage = Ok (NdArray (outer_dims r a s name) sl).
Proof.
  intros Hh Hn. destruct (Hh name Hn) as (ds & i & Hds & Hout & Hi).
  unfold read_slice. rewrite Hds, Hi.
  destruct (lookup_lt_is_Some_2 (ds_slices ds) i (translate_int_bound _ _ _ Hi)) as [sl Hsl].
  exists sl. by rewrite Hsl, Hout.
Qed.

Lemma getitem_in_range (sh : list nat) (d i : nat) (elems : list float) :
  (i < d)%nat → ∃ a, ndarray_getitem (NdArray (d :: sh) elems) i = Ok a.
Proof.
  intros Hi. unfold ndarray_getitem. simpl.
  rewrite bool_decide_eq_true_2 by done. eauto.
Qed.

(** X19: a store that expects more replicas than its container holds is
    not stopped by [initialize('existing')], but cannot load a stage:
    [load_states] raises an index error at the first replica the
    container lacks, and changes nothing. *)
Theorem load_states_beyond_container (w : world) (path mode : string)
    (dss : gmap string dataset) (r r' a s : nat) (stage : Z) :
  opened w path mode dss →
  holds_stage dss r' a s stage →
  getattr (self w) "_n_replicas" = Ok (PyInt (Z.of_nat r)) →
  (r' < r)%nat →
  load_states stage w = (Raise IndexError, w).
Proof.
  intros Ho Hh Hr Hlt.
  destruct (read_slice_held dss r' a s stage "positions" Hh) as [P HP]; [in_quantities |].
  destruct (read_slice_held dss r' a s stage "velocities" Hh) as [V HV]; [in_quantities |].
  destruct (read_slice_held dss r' a s stage "spring_states" Hh) as [T HT]; [in_quantities |].
  destruct (read_slice_held dss r' a s stage "spring_energies" Hh) as [G HG]; [in_quantities |].
  destruct (read_slice_held dss r' a s stage "lambdas" Hh) as [Lm HL]; [in_quantities |].
  destruct (read_slice_held dss r' a s stage "energies" Hh) as [E HE]; [in_quantities |].
  unfold load_states, load_positions, load_velocities, load_spring_states,
    load_spring_energies, load_lambdas, load_energies.
  rewrite (bind_ok _ _ w _ w) by (rewrite (load_series_read_slice w path mode _ dss) by done;
                                   by rewrite HP).
  rewrite (bind_ok _ _ w _ w) by (rewrite (load_series_read_slice w path mode _ dss) by done;
                                   by rewrite HV).
  rewrite (bind_ok _ _ w _ w) by (rewrite (load_series_read_slice w path mode _ dss) by done;
                                   by rewrite HT).
  rewrite (bind_ok _ _ w _ w) by (rewrite (load_series_read_slice w path mode _ dss) by done;
                                   by rewrite HG).
  rewrite (bind_ok _ _ w _ w) by (rewrite (load_series_read_slice w path mode _ dss) by done;
                                   by rewrite HL).
  rewrite (bind_ok _ _ w _ w) by (rewrite (load_series_read_slice w path mode _ dss) by done;
                                   by rewrite HE).
  rewrite (bind_ok _ _ w _ w (self_attr_ok _ _ _ Hr)).
  unfold lift_outcome at 1. unfold bind at 1. simpl. rewrite Nat2Z.id.
  apply (map_M_raises _ w IndexError r r' 0); [done | |].
  - intros i Hi. simpl.
    change (outer_dims r' a s "positions") with [r'; a; 3%nat].
    change (outer_dims r' a s "velocities") with [r'; a; 3%nat].
    change (outer_dims r' a s "spring_states") with [r'; s].
    change (outer_dims r' a s "spring_energies") with [r'; s].
    change (outer_dims r' a s "lambdas") with [r'].
    change (outer_dims r' a s "energies") with [r'].
    destruct (getitem_in_range [a; 3%nat] r' i P Hi) as [x1 H1].
    destruct (getitem_in_range [a; 3%nat] r' i V Hi) as [x2 H2].
    destruct (getitem_in_range [s] r' i T Hi) as [x3 H3].
    destruct (getitem_in_range [s] r' i G Hi) as [x4 H4].
    destruct (getitem_in_range [] r' i Lm Hi) as [x5 H5].
    destruct (getitem_in_range [] r' i E Hi) as [x6 H6].
    unfold lift_outcome, bind. rewrite H1, H2, H3, H5, H6, H4. eauto.
  - simpl. unfold lift_outcome, bind, ndarray_getitem. simpl.
    change (outer_dims r' a s "positions") with [r'; a; 3%nat].
    by rewrite bool_decide_eq_false_2 by lia.
Qed.

Lemma load_states_beyond_container_witness :
  ∃ w', initialize "existing" foreign_world = (Ok tt, w') ∧
        load_states 0 w' = (Raise IndexError, w').
Proof.
  eexists. split; [reflexivity |].
  apply (load_states_beyond_container _ h5_path "a" fresh_series 4 1 1 1 0).
  - split; reflexivity.
  - intros name Hn. pattern name. revert name Hn. unfold quantities.
    intros name. rewrite !elem_of_cons, elem_of_nil.
    intros [->|[->|[->|[->|[->|[->|[]]]]]]]; vm_compute; eauto.
  - reflexivity.
  - lia.
Defined.

(** * Stages the series hold, and stages they do not *)

Section HeldStages.

Variable h5_broadcast : list nat → ndarray → option (list float).

(** X20: on an open store, for a stage the series holds (counted from
    the start, or negative and counted from the end) and a value of the
    series' shape, [save_Q(v, stage)] succeeds and [load_Q(stage)] then
    returns [v]. *)
Theorem slice_round_trip (w : world) (path mode name : string)
    (dss : gmap string dataset) (ds : dataset) (stage : Z) (v : ndarray) :
  opened w path mode dss → mode ≠ "r" → dss !! name = Some ds →
  - Z.of_nat (length (ds_slices ds)) ≤ stage < Z.of_nat (length (ds_slices ds)) →
  shape v = ds_outer ds →
  ∃ w', save_series h5_broadcast name (NumArr v) stage w = (Ok tt, w') ∧
        load_series name stage w' = (Ok v, w').
Proof. apply save_load_held_stage. Qed.

(** X21: on an open store whose six series hold the stage, saving
    [n_replicas] well-shaped states and loading the stage returns the
    same states, replica by replica and field by field. *)
Theorem states_round_trip (w : world) (path mode : string) (dss : gmap string dataset)
    (r a s : nat) (stage : Z) (states : list SystemState) :
  opened w path mode dss → mode ≠ "r" →
  getattr (self w) "_n_replicas" = Ok (PyInt (Z.of_nat r)) →
  holds_stage dss r a s stage →
  length states = r → states ≠ [] →
  Forall (well_shaped a s) states →
  ∃ w', save_states h5_broadcast states stage w = (Ok tt, w') ∧
        load_states stage w' = (Ok states, w').
Proof. apply save_load_states. Qed.

(** X22: on an open store, a stage at or past the end of a series can
    neither be written nor read: [save_Q] and [load_Q] raise the index
    error, whatever the value, and change nothing. *)
Theorem stage_past_end_raises (w : world) (path mode name : string)
    (dss : gmap string dataset) (ds : dataset) (stage : Z) (v : ndarray) :
  opened w path mode dss → dss !! name = Some ds →
  Z.of_nat (length (ds_slices ds)) ≤ stage →
  save_series h5_broadcast name (NumArr v) stage w
    = (Raise (ValueError "Index out of range"), w) ∧
  load_series name stage w = (Raise (ValueError "Index out of range"), w).
Proof.
  intros Ho Hds Hs. split.
  - by apply (save_series_beyond h5_broadcast w path mode dss name ds).
  - rewrite (load_series_read_slice w path mode name dss) by done.
    unfold read_slice. by rewrite Hds, translate_int_beyond.
Qed.

End HeldStages.

Lemma slice_round_trip_witness :
  let v := NdArray [1; 1; 3]%nat [PrimFloat.one; PrimFloat.zero; PrimFloat.one] in
  ∃ w', save_velocities (λ _ _, None) (NumArr v) (-1) fresh_world = (Ok tt, w') ∧
        load_velocities (-1) w' = (Ok v, w').
Proof.
  intros v.
  assert (Hl : ∃ ds, fresh_series !! "velocities" = Some ds ∧ ds_outer ds = [1; 1; 3]%nat ∧
                     length (ds_slices ds) = 1%nat)
    by (vm_compute; eauto).
  destruct Hl as (ds & Hds & Hout & Hlen).
  apply (slice_round_trip (λ _ _, None) fresh_world h5_path "w-" "velocities"
           fresh_series ds (-1) v).
  - exact fresh_world_opened.
  - discriminate.
  - exact Hds.
  - rewrite Hlen. lia.
  - by rewrite Hout.
Defined.

Lemma states_round_trip_witness :
  ∃ w', save_states (λ _ _, None) [unit_state] 0 fresh_world = (Ok tt, w') ∧
        load_states 0 w' = (Ok [unit_state], w').
Proof.
  apply (states_round_trip (λ _ _, None) fresh_world h5_path "w-" fresh_series 1 1 1).
  - exact fresh_world_opened.
  - discriminate.
  - reflexivity.
  - intros name Hn. pattern name. revert name Hn. unfold quantities.
    intros name. rewrite !elem_of_cons, elem_of_nil.
    intros [->|[->|[->|[->|[->|[->|[]]]]]]]; vm_compute; eauto.
  - reflexivity.
  - discriminate.
  - apply Forall_cons. split; [| constructor].
    unfold well_shaped, wf_array. split_and!; reflexivity.
Defined.

Lemma stage_past_end_raises_witness :
  let v := NdArray [1%nat] [PrimFloat.one] in
  save_energies (λ _ _, None) (NumArr v) 3 fresh_world
    = (Raise (ValueError "Index out of range"), fresh_world) ∧
  load_energies 3 fresh_world = (Raise (ValueError "Index out of range"), fresh_world).
Proof.
  intros v.
  assert (Hl : ∃ ds, fresh_series !! "energies" = Some ds ∧ length (ds_slices ds) = 1%nat)
    by (vm_compute; eauto).
  destruct Hl as (ds & Hds & Hlen).
  apply (stage_past_end_raises (λ _ _, None) fresh_world h5_path "w-" "energies"
           fresh_series ds 3 v).
  - exact fresh_world_opened.
  - exact Hds.
  - rewrite Hlen. lia.
Defined.

(** * A save that stops half way *)

Section PartialSave.

Variable h5_broadcast : list nat → ndarray → option (list float).

(** X23: [save_states] is not all or nothing.  On a container that holds
    the positions but lacks the velocities, it writes the positions of the
    stage and then raises a key error for the missing series: the
    positions of the stage are those of the new states although the call
    failed. *)
Theorem save_states_stops_half_way (w : world) (path mode : string)
    (dss : gmap string dataset) (dp : dataset) (r a : nat) (stage : Z) (i : nat)
    (states : list SystemState) :
  opened w path mode dss → mode ≠ "r" →
  dss !! "positions" = Some dp → ds_outer dp = [r; a; 3%nat] →
  translate_int stage (length (ds_slices dp)) = Ok i →
  dss !! "velocities" = None →
  length states = r → states ≠ [] →
  Forall (λ st, shape (positions st) = [a; 3%nat] ∧ wf_array (positions st)) states →
  ∃ w', save_states h5_broadcast states stage w = (Raise (KeyError "velocities"), w') ∧
        load_series "positions" stage w' = (Ok (stack [a; 3%nat] (map positions states)), w').
Proof.
  intros Ho Hm Hdp Hout Hi Hv Hlen Hne Fp.
  set (P := stack [a; 3%nat] (map positions states)).
  assert (HsP : shape P = ds_outer dp) by (simpl; by rewrite length_map, Hlen, Hout).
  destruct (save_series_step h5_broadcast w path mode dss "positions" dp stage i P
              Ho Hm Hdp Hi HsP) as (w1 & dss1 & S1 & O1 & Q1 & W1 & R1).
  exists w1. split.
  - unfold save_states. rewrite (np_array_field positions _ _ Hne Fp). cbv zeta.
    unfold save_positions. fold P. rewrite (bind_ok _ _ w _ w1 S1).
    apply bind_raise. unfold save_velocities, save_series.
    destruct O1 as [Hh1 Hf1].
    rewrite (bind_ok _ _ w1 _ w1 (self_attr_ok _ _ _ Hh1)).
    apply bind_raise. unfold h5_getitem.
    rewrite (bind_ok _ _ w1 _ w1 (h5_datasets_ok _ _ _ Hf1)).
    by rewrite R1, Hv.
  - by apply (load_written w1 path mode dss1 "positions" dp stage i P).
Qed.

End PartialSave.

Lemma save_states_stops_half_way_witness :
  let dss : gmap string dataset := {[ "positions" := new_series [1; 1; 3]%nat ]} in
  let w := World live_store (<[h5_path := File (H5 dss)]> bare_disk) in
  ∃ w', save_states (λ _ _, None) [unit_state] 0 w = (Raise (KeyError "velocities"), w') ∧
        load_positions 0 w' = (Ok (stack [1; 3]%nat [positions unit_state]), w').
Proof.
  intros dss w.
  apply (save_states_stops_half_way (λ _ _, None) w h5_path "a" dss
           (new_series [1; 1; 3]%nat) 1 1 0 0%nat [unit_state]).
  - split; reflexivity.
  - discriminate.
  - reflexivity.
  - reflexivity.
  - reflexivity.
  - reflexivity.
  - reflexivity.
  - discriminate.
  - apply Forall_cons. split; [| constructor]. split; reflexivity.
Defined.
